(** * qemuhelper: the wrapper around the qemu and nbd helper executables

    A shallow embedding of [libvirtnbdbackup/qemuhelper/qemuhelper.py]:
    the [processInfo] record, the command lines the [qemuHelper] methods
    build, and [runcmd], which launches a command line, waits for it,
    and either returns a [processInfo] or raises.

    Python text ([str]) is a [string] holding its UTF-8 encoding, a
    [bytes] object is a [list byte].  Effects are explicit: a computation
    is a function of the [World] (files, temporary-name supply, what the
    operating system does with an argument vector) that returns a value,
    raises an exception, or never returns.  Calls to the [logging] module
    leave no trace in the [World]. *)

From Stdlib Require Import ZArith List Ascii String.
From Stdlib.Strings Require Import Byte.
From stdpp Require Import base option list gmap strings pretty.
Import ListNotations.

Local Open Scope Z_scope.

(** ** Python values *)

Abbreviation bytes := (list byte).

(** The dynamically typed arguments the methods interpolate into their
    command lines. *)
Inductive pyval : Type :=
| VNone
| VBool (b : bool)
| VInt (n : Z)
| VStr (s : string).

(** [f"{v}"] *)
Definition format (v : pyval) : string :=
  match v with
  | VNone => "None"
  | VBool true => "True"
  | VBool false => "False"
  | VInt n => pretty n
  | VStr s => s
  end.

(** [if v:] *)
Definition truthy (v : pyval) : bool :=
  match v with
  | VNone => false
  | VBool b => b
  | VInt n => negb (n =? 0)
  | VStr s => negb (String.eqb s "")
  end.

(** [v is not None] *)
Definition is_not_None (v : pyval) : bool :=
  match v with
  | VNone => false
  | _ => true
  end.

(** ** Exceptions *)

(** Modelled from the spec: [exceptions.ProcessError] of
    [libvirtnbdbackup.qemuhelper] is not among the sources; the spec has
    it as the one error kind of the launcher, carrying a text.  The
    other constructors are the exceptions of the Python library that the
    calls made here can raise, with what they are raised about. *)
Inductive exn : Type :=
| ProcessError (msg : string)
| IndexError
| AttributeError
| FileNotFoundError (path : string)
| FileExistsError
| TimeoutExpired (cmd : list string) (timeout : N)
| CalledProcessError (returncode : Z) (cmd : string) (output stderr : bytes)
| UnicodeDecodeError (position : nat)
| ValueError (literal : string)
| JSONDecodeError (msg : string) (position : nat).

Definition is_ProcessError (e : exn) : bool :=
  match e with
  | ProcessError _ => true
  | _ => false
  end.

(** ** [bytes.decode()] and [str.strip()] *)

Definition in_range (lo hi : N) (b : byte) : bool :=
  ((lo <=? Byte.to_N b) && (Byte.to_N b <=? hi))%N.

Definition is_cont (b : byte) : bool := in_range 128 191 b.

(** The admissible range of the byte after lead byte [b0] in a sequence
    of three or four bytes: no overlong forms, no surrogates, nothing
    beyond U+10FFFF. *)
Definition second_ok (b0 b1 : byte) : bool :=
  match Byte.to_N b0 with
  | 224%N => in_range 160 191 b1
  | 237%N => in_range 128 159 b1
  | 240%N => in_range 144 191 b1
  | 244%N => in_range 128 143 b1
  | _ => is_cont b1
  end.

(** Position of the first byte that does not start a well-formed UTF-8
    sequence, counting from [pos]. *)
Fixpoint utf8_error_at (pos : nat) (bs : bytes) : option nat :=
  match bs with
  | [] => None
  | b0 :: r0 =>
      if in_range 0 127 b0 then utf8_error_at (S pos) r0
      else if in_range 194 223 b0 then
        match r0 with
        | b1 :: r1 =>
            if is_cont b1 then utf8_error_at (2 + pos) r1 else Some pos
        | _ => Some pos
        end
      else if in_range 224 239 b0 then
        match r0 with
        | b1 :: b2 :: r2 =>
            if second_ok b0 b1 && is_cont b2
            then utf8_error_at (3 + pos) r2 else Some pos
        | _ => Some pos
        end
      else if in_range 240 244 b0 then
        match r0 with
        | b1 :: b2 :: b3 :: r3 =>
            if second_ok b0 b1 && is_cont b2 && is_cont b3
            then utf8_error_at (4 + pos) r3 else Some pos
        | _ => Some pos
        end
      else Some pos
  end.

(** [b.decode()]: strict UTF-8. *)
Definition decode (b : bytes) : exn + string :=
  match utf8_error_at 0 b with
  | Some pos => inl (UnicodeDecodeError pos)
  | None => inr (string_of_list_byte b)
  end.

(** White space as [str.strip()] sees it: U+0009..U+000D, U+001C..U+0020,
    U+0085, U+00A0, U+1680, U+2000..U+200A, U+2028, U+2029, U+202F,
    U+205F and U+3000, here by their encodings of one, two and three
    bytes. *)
Definition ws1 (a : ascii) : bool :=
  let n := N_of_ascii a in
  ((9 <=? n) && (n <=? 13) || (28 <=? n) && (n <=? 32))%N.

Definition ws2 (a b : ascii) : bool :=
  ((N_of_ascii a =? 194) &&
   ((N_of_ascii b =? 133) || (N_of_ascii b =? 160)))%N.

Definition ws3 (a b c : ascii) : bool :=
  let '(x, y, z) := (N_of_ascii a, N_of_ascii b, N_of_ascii c) in
  ((x =? 225) && (y =? 154) && (z =? 128)
   || (x =? 226) && (y =? 128) &&
        ((128 <=? z) && (z <=? 138) || (z =? 168) || (z =? 169) || (z =? 175))
   || (x =? 226) && (y =? 129) && (z =? 159)
   || (x =? 227) && (y =? 128) && (z =? 128))%N.

(** Drops leading white space; with [backwards] the string is read from
    its end, so the bytes of a character arrive last byte first. *)
Fixpoint drop_space (backwards : bool) (s : string) : string :=
  match s with
  | String a s1 =>
      if ws1 a then drop_space backwards s1
      else
        match s1 with
        | String b s2 =>
            if (if backwards then ws2 b a else ws2 a b)
            then drop_space backwards s2
            else
              match s2 with
              | String c s3 =>
                  if (if backwards then ws3 c b a else ws3 a b c)
                  then drop_space backwards s3
                  else s
              | EmptyString => s
              end
        | EmptyString => s
        end
  | EmptyString => s
  end.

Definition lstrip (s : string) : string := drop_space false s.
Definition rstrip (s : string) : string :=
  String.rev (drop_space true (String.rev s)).

(** [s.strip()] *)
Definition strip (s : string) : string := rstrip (lstrip s).

(** ** The world a launch runs in *)

Inductive stream : Type := Stdout | Stderr.

(** When a child process ends, in the unit of the [timeout] of
    [Popen.wait], counted from its start. *)
Inductive termination : Type :=
| Exits (after : N) (returncode : Z)
| NeverExits.

(** What a spawned program does: the chunks it prints, in order, each on
    one of its two output streams; the files it leaves behind (a
    pid-file, a disk image); and how it ends. *)
Record child : Type := Child {
  child_pid : positive;
  child_output : list (stream * bytes);
  child_writes : list (string * bytes);
  child_term : termination
}.

Record World : Type := mkWorld {
  files : gmap string bytes;
  tmpdir : string;
  (** the random name components [tempfile] is still to draw *)
  tmpnames : list string;
  (** [execvp] of an argument vector: an error, or a running child *)
  spawn : list string → exn + child
}.

Definition set_files (fs : gmap string bytes) (w : World) : World :=
  mkWorld fs (tmpdir w) (tmpnames w) (spawn w).

(** ** Computations: state, exceptions, non-termination *)

Inductive outcome (A : Type) : Type :=
| Return (a : A) (w : World)
| Raise (e : exn) (w : World)
| Hang.
Arguments Return {A} a w.
Arguments Raise {A} e w.
Arguments Hang {A}.

Definition M (A : Type) : Type := World → outcome A.

#[global] Instance M_ret : MRet M := λ A a w, Return a w.

#[global] Instance M_bind : MBind M := λ A B f m w,
  match m w with
  | Return a w1 => f a w1
  | Raise e w1 => Raise e w1
  | Hang => Hang
  end.

Definition raise {A : Type} (e : exn) : M A := λ w, Raise e w.

Definition hang {A : Type} : M A := λ _, Hang.

(** Lifts the result of a pure library call that may raise. *)
Definition lift {A : Type} (r : exn + A) : M A :=
  match r with
  | inl e => raise e
  | inr a => mret a
  end.

(** [try: body except Exception as e: handler e] *)
Definition try_except {A : Type} (body : M A) (handler : exn → M A) : M A :=
  λ w,
    match body w with
    | Raise e w1 => handler e w1
    | r => r
    end.

(** ** The operating system and the Python library *)

(** [l[0]] *)
Definition item0 (l : list string) : M string :=
  match l with
  | x :: _ => mret x
  | [] => raise IndexError
  end.

(** First candidate path that names no existing file. *)
Fixpoint fresh_name (fs : gmap string bytes) (dir pre suf : string)
    (cands : list string) : option (string * list string) :=
  match cands with
  | [] => None
  | c :: rest =>
      let path := dir +:+ "/" +:+ pre +:+ c +:+ suf in
      match fs !! path with
      | None => Some (path, rest)
      | Some _ => fresh_name fs dir pre suf rest
      end
  end.

(** [tempfile.NamedTemporaryFile(delete=False, prefix=.., suffix=..).name]:
    the file is created, empty, and stays. *)
Definition NamedTemporaryFile (prefix suffix : string) : M string := λ w,
  match fresh_name (files w) (tmpdir w) prefix suffix (tmpnames w) with
  | None => Raise FileExistsError w
  | Some (path, rest) =>
      Return path (mkWorld (<[path := []]> (files w)) (tmpdir w) rest (spawn w))
  end.

(** Where [Popen] sends both [stdout] and [stderr]. *)
Inductive redirect : Type :=
| PIPE
| ToFile (name : string).

Record Popen_obj : Type := mkPopen {
  p_args : list string;
  p_pid : positive;
  p_stdout : option bytes;
  p_stderr : option bytes;
  p_term : termination
}.

Definition is_stream (s : stream) (c : stream * bytes) : bool :=
  match s, c.1 with
  | Stdout, Stdout | Stderr, Stderr => true
  | _, _ => false
  end.

(** Everything the child prints on stream [s]. *)
Definition printed (s : stream) (c : child) : bytes :=
  concat ((λ x, x.2) <$> filter (λ x, is_stream s x = true) (child_output c)).

(** Everything the child prints, both streams sharing one file. *)
Definition printed_all (c : child) : bytes :=
  concat ((λ x, x.2) <$> child_output c).

Definition write_all (ws : list (string * bytes)) (fs : gmap string bytes) :
    gmap string bytes :=
  foldl (λ acc x, <[x.1 := x.2]> acc) fs ws.

(** [subprocess.Popen(args, close_fds=True, stderr=to, stdout=to)] *)
Definition Popen (args : list string) (to : redirect) : M Popen_obj := λ w,
  match args with
  | [] => Raise IndexError w
  | _ :: _ =>
      match spawn w args with
      | inl e => Raise e w
      | inr c =>
          let fs :=
            match to with
            | PIPE => files w
            | ToFile name => <[name := printed_all c]> (files w)
            end in
          let captured s :=
            match to with
            | PIPE => Some (printed s c)
            | ToFile _ => None
            end in
          Return (mkPopen args (child_pid c) (captured Stdout)
                    (captured Stderr) (child_term c))
                 (set_files (write_all (child_writes c) fs) w)
      end
  end.

(** [p.wait(timeout)] *)
Definition wait (p : Popen_obj) (timeout : N) : M Z :=
  match p_term p with
  | Exits after rc =>
      if (after <=? timeout)%N then mret rc
      else raise (TimeoutExpired (p_args p) timeout)
  | NeverExits => raise (TimeoutExpired (p_args p) timeout)
  end.

(** [with Popen(..) as p: body]: on the way out, normally or not, the
    context manager waits for the child without a bound. *)
Definition with_Popen {A : Type} (open : M Popen_obj)
    (body : Popen_obj → M A) : M A :=
  λ w,
    match open w with
    | Return p w1 =>
        match body p w1, p_term p with
        | Hang, _ | _, NeverExits => Hang
        | r, Exits _ _ => r
        end
    | Raise e w1 => Raise e w1
    | Hang => Hang
    end.

(** [pipe.read()], for a pipe that nothing holds open once the child has
    ended: all that was written to it. *)
Definition read_pipe (pipe : option bytes) : M bytes :=
  match pipe with
  | Some b => mret b
  | None => raise AttributeError
  end.

Record CompletedProcess : Type := mkCompleted {
  cp_args : string;
  cp_returncode : Z;
  stdout : bytes;
  stderr : bytes
}.

(** [subprocess.run(cmd, shell=True, check=True, stdout=PIPE, stderr=PIPE)]:
    the shell runs [cmd]; both pipes are read to their end and the shell
    is waited for, with no timeout. *)
Definition subprocess_run (cmd : string) : M CompletedProcess :=
  with_Popen (Popen ["/bin/sh"; "-c"; cmd] PIPE) (λ p,
    match p_term p with
    | NeverExits => hang
    | Exits _ rc =>
        out ← read_pipe (p_stdout p);
        err ← read_pipe (p_stderr p);
        if decide (rc ≠ 0) then raise (CalledProcessError rc cmd out err)
        else mret (mkCompleted cmd rc out err)
    end).

(** Modelled from the spec: [openfile] of [libvirtnbdbackup.outputhelper]
    is not among the sources; the spec has it as the file I/O helper that
    reopens a log file and reads it in binary.  [with openfile(path, "rb")
    as fh: fh.read()] gives the content of the file, or raises when there
    is no such file. *)
Definition openfile_read (path : string) : M bytes := λ w,
  match files w !! path with
  | Some b => Return b w
  | None => Raise (FileNotFoundError path) w
  end.

(** The parts of the interpreter whose exact behaviour varies with its
    version and its Unicode tables: the text of an exception, the integer
    literals [int] accepts, and the JSON decoder. *)
Class PyRuntime : Type := {
  (** [str(e)] *)
  str_exn : exn → string;
  (** [int(s)]: [None] where Python raises [ValueError] *)
  int_of_str : string → option Z;
  JSON : Type;
  (** [json.loads(b)] *)
  json_loads : bytes → exn + JSON
}.

(** ** [processInfo] *)

Record processInfo : Type := mkProcessInfo {
  pid : Z;
  logFile : option string;
  err : option string;
  out : option string
}.

(** The object [map] receives: where to connect and which metadata
    context to ask for. *)
Record connection : Type := mkConnection {
  metaContext : pyval;
  uri : pyval
}.

(** The parsed command line of [virtnbdmap], as far as
    [startNbdkitProcess] reads it. *)
Record arguments : Type := mkArguments {
  verbose : pyval;
  listen_address : pyval;
  listen_port : pyval;
  blocksize : pyval;
  threads : pyval
}.

(** ** class [qemuHelper] *)

Module qemuHelper.

Record t : Type := __init__ { exportName : pyval }.

Section Methods.
Context `{py : PyRuntime}.

Definition _readlog (logFile cmd : string) : M string :=
  try_except
    (b ← openfile_read logFile;
     s ← lift (decode b);
     mret (strip s))
    (λ errmsg,
       raise (ProcessError ("Error executing [" +:+ cmd +:+
                            "] Unable to get error message: " +:+
                            str_exn errmsg))).

Definition _readpipe (p : Popen_obj) : M (string * string) :=
  o ← read_pipe (p_stdout p);
  out ← lift (decode o);
  e ← read_pipe (p_stderr p);
  err ← lift (decode e);
  mret (strip out, strip err).

(** [runcmd(self, cmdLine, pidFile=None, toPipe=False)] *)
Definition runcmd (cmdLine : list string) (pidFile : option string)
    (toPipe : bool) : M processInfo :=
  '(logFile, logFileName) ←
    (if toPipe then mret (PIPE, None)
     else
       prefix ← item0 cmdLine;
       name ← NamedTemporaryFile prefix ".log";
       mret (ToFile name, Some name));
  with_Popen (Popen cmdLine logFile) (λ p,
    returncode ← wait p 5;
    if decide (returncode ≠ 0) then
      _ ← wait p 5;
      err ←
        (if toPipe then oe ← _readpipe p; mret oe.2
         else
           match logFile with
           | ToFile name => prog ← item0 cmdLine; _readlog name prog
           | PIPE => raise AttributeError
           end);
      prog ← item0 cmdLine;
      raise (ProcessError ("Unable to start [" +:+ prog +:+ "] error: [" +:+
                           err +:+ "]"))
    else
      '(out, err) ←
        (if toPipe then oe ← _readpipe p; mret (Some oe.1, Some oe.2)
         else mret (None, None));
      realPid ←
        match pidFile with
        | Some f =>
            s ← _readlog f "";
            match int_of_str s with
            | Some n => mret n
            | None => raise (ValueError s)
            end
        | None => mret (Z.pos (p_pid p))
        end;
      mret (mkProcessInfo realPid logFileName err out)).

Definition pidFile_default : option string := None.
Definition toPipe_default : bool := false.

(** The command lines, apart from their launch. *)

Definition map_cmd (cType : connection) : string :=
  let metaOpt :=
    if is_not_None (metaContext cType)
    then "--map=" +:+ format (metaContext cType)
    else "--map" in
  "nbdinfo --json " +:+ metaOpt +:+ " " +:+ "'" +:+ format (uri cType) +:+ "'".

Definition create_cmd (targetFile fileSize diskFormat : pyval) : list string :=
  [ "qemu-img"; "create"; "-f";
    format diskFormat; format targetFile; format fileSize ].

Definition startRestoreNbdServer_cmd (self : t)
    (targetFile socketFile : pyval) : list string :=
  [ "qemu-nbd"; "--discard=unmap"; "--format=qcow2"; "-x";
    format (exportName self); format targetFile; "-k"; format socketFile;
    "--fork" ].

Definition startNbdkitProcess_cmd (self : t) (args : arguments)
    (nbdkitModule blockMap fullImage : pyval) : M (string * list string) :=
  pidFile ← NamedTemporaryFile "nbdkit" ".pid";
  let debug := if truthy (verbose args) then "1" else "0" in
  mret (pidFile,
        [ "nbdkit"; "--pidfile"; pidFile;
          "-i"; format (listen_address args);
          "-p"; format (listen_port args);
          "-e"; format (exportName self);
          "--filter=blocksize"; "--filter=cow"; "-v"; "python";
          format nbdkitModule;
          "maxlen=" +:+ format (blocksize args);
          "blockmap=" +:+ format blockMap;
          "disk=" +:+ format fullImage;
          "debug=" +:+ debug;
          "-t"; format (threads args) ]).

Definition startBackupNbdServer_pidFile (socketFile : pyval) : string :=
  format socketFile +:+ ".pid".

Definition startBackupNbdServer_cmd (self : t)
    (diskFormat diskFile socketFile bitMap : pyval) : list string :=
  let bitmapOpt :=
    if is_not_None bitMap then "--bitmap=" +:+ format bitMap else "--" in
  let pidFile := startBackupNbdServer_pidFile socketFile in
  [ "qemu-nbd"; "-r"; "--format=" +:+ format diskFormat; "-x";
    format (exportName self); format diskFile; "-k"; format socketFile;
    "-t"; "-e 2"; "--fork"; "--detect-zeroes=on";
    "--pid-file=" +:+ pidFile; bitmapOpt ].

Definition disconnect_cmd (device : pyval) : list string :=
  [ "qemu-nbd"; "-d"; format device ].

(** The methods. *)

Definition map (self : t) (cType : connection) : M JSON :=
  extentMap ← subprocess_run (map_cmd cType);
  lift (json_loads (stdout extentMap)).

Definition create (self : t) (targetFile fileSize diskFormat : pyval) :
    M processInfo :=
  runcmd (create_cmd targetFile fileSize diskFormat)
    pidFile_default toPipe_default.

Definition startRestoreNbdServer (self : t) (targetFile socketFile : pyval) :
    M processInfo :=
  runcmd (startRestoreNbdServer_cmd self targetFile socketFile)
    pidFile_default toPipe_default.

Definition startNbdkitProcess (self : t) (args : arguments)
    (nbdkitModule blockMap fullImage : pyval) : M processInfo :=
  '(pidFile, cmd) ←
    startNbdkitProcess_cmd self args nbdkitModule blockMap fullImage;
  runcmd cmd (Some pidFile) toPipe_default.

Definition startBackupNbdServer (self : t)
    (diskFormat diskFile socketFile bitMap : pyval) : M processInfo :=
  runcmd (startBackupNbdServer_cmd self diskFormat diskFile socketFile bitMap)
    (Some (startBackupNbdServer_pidFile socketFile)) toPipe_default.

Definition disconnect (self : t) (device : pyval) : M processInfo :=
  runcmd (disconnect_cmd device) pidFile_default toPipe_default.

End Methods.
End qemuHelper.

(** ** The phases of [runcmd], the public operations, the builders *)

(** [s.encode()] *)
Definition encode (s : string) : bytes := list_byte_of_string s.

(** The text of the error [runcmd] raises for a failed start. *)
Definition start_failure (prog diag : string) : string :=
  "Unable to start [" +:+ prog +:+ "] error: [" +:+ diag +:+ "]".

(** [sub in s] *)
Definition contains (sub s : string) : Prop :=
  ∃ pre post, s = pre +:+ sub +:+ post.

(** A token that gives the bitmap flag. *)
Definition bitmap_flag (tok : string) : bool := String.prefix "--bitmap=" tok.

(** How many tokens of a command line give the bitmap flag. *)
Definition bitmap_flags (cmd : list string) : nat :=
  length (List.filter bitmap_flag cmd).



(** The handle with the captured text [cap] or with none. *)
Definition handle (n : Z) (name : option string)
    (cap : option (string * string)) : processInfo :=
  mkProcessInfo n name (snd <$> cap) (fst <$> cap).

(** What a failed start is to report: a [ProcessError] whose text gives
    the program and a diagnostic that is not empty. *)
Definition reports_diagnostic (prog : string) (r : outcome processInfo) :
    Prop :=
  ∃ diag w', diag ≠ "" ∧ r = Raise (ProcessError (start_failure prog diag)) w'.

Section Derived.
Context `{py : PyRuntime}.
Import qemuHelper.

(** The first lines of [runcmd], up to the [Popen] call: the name of the
    log file, if there is one, and the running process. *)
Definition launch (cmdLine : list string) (toPipe : bool) :
    M (option string * Popen_obj) :=
  '(logFile, logFileName) ←
    (if toPipe then mret (PIPE, None)
     else
       prefix ← item0 cmdLine;
       name ← NamedTemporaryFile prefix ".log";
       mret (ToFile name, Some name));
  p ← Popen cmdLine logFile;
  mret (logFileName, p).

(** The text of the error [_readlog] raises when it cannot read. *)
Definition read_failure (cmd : string) (e : exn) : string :=
  "Error executing [" +:+ cmd +:+ "] Unable to get error message: " +:+
  str_exn e.

(** The branch of [runcmd] for a return code other than 0. *)
Definition failed (cmdLine : list string) (toPipe : bool)
    (name : option string) (p : Popen_obj) : M processInfo :=
  err ←
    (if toPipe then oe ← _readpipe p; mret oe.2
     else
       match name with
       | Some n => prog ← item0 cmdLine; _readlog n prog
       | None => raise AttributeError
       end);
  prog ← item0 cmdLine;
  raise (ProcessError (start_failure prog err)).

(** The pid [runcmd] reports: the one in the pid-file, or else that of
    the process it started. *)
Definition resolve_pid (pidFile : option string) (p : Popen_obj) : M Z :=
  match pidFile with
  | Some f =>
      s ← _readlog f "";
      match int_of_str s with
      | Some n => mret n
      | None => raise (ValueError s)
      end
  | None => mret (Z.pos (p_pid p))
  end.

(** The branch of [runcmd] for return code 0. *)
Definition succeeded (pidFile : option string) (toPipe : bool)
    (name : option string) (p : Popen_obj) : M processInfo :=
  '(out, err) ←
    (if toPipe then oe ← _readpipe p; mret (Some oe.1, Some oe.2)
     else mret (None, None));
  realPid ← resolve_pid pidFile p;
  mret (mkProcessInfo realPid name err out).

(** Both pipes of [p], where it has pipes, hold text. *)
Definition pipes_decode (p : Popen_obj) : Prop :=
  ∀ b, p_stdout p = Some b ∨ p_stderr p = Some b → ∃ s, decode b = inr s.

(** The methods that hand a command line to [runcmd]. *)
Inductive operation : Type :=
| Create (targetFile fileSize diskFormat : pyval)
| StartRestoreNbdServer (targetFile socketFile : pyval)
| StartNbdkitProcess (args : arguments)
    (nbdkitModule blockMap fullImage : pyval)
| StartBackupNbdServer (diskFormat diskFile socketFile bitMap : pyval)
| Disconnect (device : pyval).

Definition invoke (self : t) (op : operation) : M processInfo :=
  match op with
  | Create targetFile fileSize diskFormat =>
      create self targetFile fileSize diskFormat
  | StartRestoreNbdServer targetFile socketFile =>
      startRestoreNbdServer self targetFile socketFile
  | StartNbdkitProcess args nbdkitModule blockMap fullImage =>
      startNbdkitProcess self args nbdkitModule blockMap fullImage
  | StartBackupNbdServer diskFormat diskFile socketFile bitMap =>
      startBackupNbdServer self diskFormat diskFile socketFile bitMap
  | Disconnect device => disconnect self device
  end.

End Derived.

(** What a method builds before it launches anything: a line for the
    shell, or an argument vector. *)
Inductive command_line : Type :=
| ShellCommand (cmd : string)
| Argv (args : list string).

(** The six methods by the command lines they build. *)
Inductive request : Type :=
| BuildMap (cType : connection)
| BuildCreate (targetFile fileSize diskFormat : pyval)
| BuildRestore (targetFile socketFile : pyval)
| BuildNbdkit (args : arguments) (nbdkitModule blockMap fullImage : pyval)
| BuildBackup (diskFormat diskFile socketFile bitMap : pyval)
| BuildDisconnect (device : pyval).

Definition is_BuildNbdkit (req : request) : bool :=
  match req with
  | BuildNbdkit _ _ _ _ => true
  | _ => false
  end.

(** The part of each method that comes before its launch. *)
Definition build (self : qemuHelper.t) (req : request) : M command_line :=
  match req with
  | BuildMap cType => mret (ShellCommand (qemuHelper.map_cmd cType))
  | BuildCreate targetFile fileSize diskFormat =>
      mret (Argv (qemuHelper.create_cmd targetFile fileSize diskFormat))
  | BuildRestore targetFile socketFile =>
      mret (Argv (qemuHelper.startRestoreNbdServer_cmd self targetFile
                    socketFile))
  | BuildNbdkit args nbdkitModule blockMap fullImage =>
      pc ← qemuHelper.startNbdkitProcess_cmd self args nbdkitModule blockMap
             fullImage;
      mret (Argv pc.2)
  | BuildBackup diskFormat diskFile socketFile bitMap =>
      mret (Argv (qemuHelper.startBackupNbdServer_cmd self diskFormat diskFile
                    socketFile bitMap))
  | BuildDisconnect device => mret (Argv (qemuHelper.disconnect_cmd device))
  end.

(** A builder that is a function of its inputs alone: the same command
    line in every world, and the world left as it was. *)
Definition pure_builder (self : qemuHelper.t) (req : request) : Prop :=
  ∃ v, ∀ w, build self req w = Return v w.

(** ** A runtime and worlds for closed examples *)

Definition digit_value (a : ascii) : option Z :=
  let n := Z.of_N (N_of_ascii a) in
  if (48 <=? n) && (n <=? 57) then Some (n - 48) else None.

(** The digits of a decimal literal, single underscores between them. *)
Fixpoint int_digits (acc : Z) (after_digit : bool) (s : string) : option Z :=
  match s with
  | EmptyString => if after_digit then Some acc else None
  | String a r =>
      match digit_value a with
      | Some d => int_digits (10 * acc + d) true r
      | None =>
          if Ascii.eqb a "_" && after_digit then int_digits acc false r
          else None
      end
  end.

(** [int(s)] on a literal of ASCII characters: white space around it, a
    sign, decimal digits.  Digits of other scripts, which the
    interpreter also reads, are no literal here. *)
Definition int_ascii (s : string) : option Z :=
  match strip s with
  | String "-" r => Z.opp <$> int_digits 0 false r
  | String "+" r => int_digits 0 false r
  | t => int_digits 0 false t
  end.

(** The items of an array of unsigned integers, after its bracket. *)
Fixpoint int_items (cur : option Z) (s : string) : option (list Z) :=
  match s with
  | EmptyString => None
  | String a r =>
      match digit_value a, cur with
      | Some d, _ => int_items (Some (10 * default 0 cur + d)) r
      | None, Some n =>
          if Ascii.eqb a "," then cons n <$> int_items None r
          else if Ascii.eqb a "]" && String.eqb r "" then Some [n]
          else None
      | None, None => None
      end
  end.

(** [json.loads] as far as arrays of unsigned integers go; whatever else
    it is given it reports as undecodable, at position 0. *)
Definition loads_ints (b : bytes) : exn + list Z :=
  match decode b with
  | inl e => inl e
  | inr s =>
      match strip s with
      | "[]" => inr []
      | String "[" r =>
          match int_items None r with
          | Some l => inr l
          | None => inl (JSONDecodeError "Expecting value" 0)
          end
      | _ => inl (JSONDecodeError "Expecting value" 0)
      end
  end.

(** [str(e)], abridged. *)
Definition str_abridged (e : exn) : string :=
  match e with
  | ProcessError msg => msg
  | IndexError => "list index out of range"
  | AttributeError => "object has no such attribute"
  | FileNotFoundError path =>
      "[Errno 2] No such file or directory: '" +:+ path +:+ "'"
  | FileExistsError => "[Errno 17] No usable temporary file name found"
  | TimeoutExpired _ timeout =>
      "Command timed out after " +:+ pretty timeout +:+ " seconds"
  | CalledProcessError rc cmd _ _ =>
      "Command '" +:+ cmd +:+ "' returned non-zero exit status " +:+
      pretty rc +:+ "."
  | UnicodeDecodeError pos =>
      "'utf-8' codec can't decode byte in position " +:+ pretty pos
  | ValueError literal =>
      "invalid literal for int() with base 10: '" +:+ literal +:+ "'"
  | JSONDecodeError msg pos => msg +:+ ": (char " +:+ pretty pos +:+ ")"
  end.

Definition example_runtime : PyRuntime :=
  {| str_exn := str_abridged;
     int_of_str := int_ascii;
     JSON := list Z;
     json_loads := loads_ints |}.

(** A world with files [fs] in which every program behaves as [c]. *)
Definition world_of (fs : gmap string bytes) (c : child) : World :=
  mkWorld fs "/tmp" ["k3x9_a0b"; "w8s1hq2z"] (λ _, inr c).

(** A helper that prints nothing and ends with status 1. *)
Definition silent_failure : child := Child 4242 [] [] (Exits 0 1).

(** A helper that forks, leaves [content] in its pid-file [path], and
    ends with status 0. *)
Definition daemon (path content : string) : child :=
  Child 4242 [] [(path, encode content)] (Exits 1 0).

(** A tool that prints [text] on its standard output and [complaint] on
    its standard error, and ends with status [rc] after [after]. *)
Definition tool (text complaint : string) (after : N) (rc : Z) : child :=
  Child 4242 [(Stdout, encode text); (Stderr, encode complaint)] []
    (Exits after rc).

Definition export0 : qemuHelper.t := qemuHelper.__init__ (VStr "sda").

Definition virtnbdmap_args : arguments :=
  mkArguments (VBool false) (VStr "127.0.0.1") (VInt 10809) (VStr "4096")
    (VInt 1).

(** The values a method makes a token of, each as it is. *)
Definition inputs (self : qemuHelper.t) (req : request) : list pyval :=
  match req with
  | BuildMap cType => []
  | BuildCreate targetFile fileSize diskFormat =>
      [diskFormat; targetFile; fileSize]
  | BuildRestore targetFile socketFile =>
      [qemuHelper.exportName self; targetFile; socketFile]
  | BuildNbdkit args nbdkitModule blockMap fullImage =>
      [listen_address args; listen_port args; qemuHelper.exportName self;
       nbdkitModule; threads args]
  | BuildBackup diskFormat diskFile socketFile bitMap =>
      [qemuHelper.exportName self; diskFile; socketFile]
  | BuildDisconnect device => [device]
  end.

(** The methods that pass a pid-file to [runcmd]. *)
Definition passes_pidFile (op : operation) : bool :=
  match op with
  | StartNbdkitProcess _ _ _ _ | StartBackupNbdServer _ _ _ _ => true
  | _ => false
  end.

(** The paths a child writes. *)
Definition written (c : child) : list string := (λ x, x.1) <$> child_writes c.

(** * Properties *)

Example strip_ascii : strip "  qemu-nbd: failed
" = "qemu-nbd: failed".
Proof. reflexivity. Qed.

Example strip_blank : strip "  " = "".
Proof. reflexivity. Qed.

Example decode_examples :
  decode [x63; xc3; xa9]%byte = inr (string_of_list_byte [x63; xc3; xa9]%byte) ∧
  decode [x63; xff]%byte = inl (UnicodeDecodeError 1) ∧
  decode [xc0; x80]%byte = inl (UnicodeDecodeError 0) ∧
  decode [xed; xa0; x80]%byte = inl (UnicodeDecodeError 0) ∧
  decode [xf0; x9f; x98; x80]%byte
    = inr (string_of_list_byte [xf0; x9f; x98; x80]%byte) ∧
  decode [xe2; x82]%byte = inl (UnicodeDecodeError 0).
Proof. repeat split; reflexivity. Qed.

Example strip_wide_space :
  strip (string_of_list_byte [xe3; x80; x80; x31; xc2; xa0; x0a]%byte) = "1".
Proof. reflexivity. Qed.

Example int_ascii_examples :
  int_ascii "4711" = Some 4711 ∧ int_ascii "-5" = Some (-5) ∧
  int_ascii "1_000" = Some 1000 ∧ int_ascii "abc" = None ∧
  int_ascii "" = None ∧ int_ascii "1__0" = None.
Proof. repeat split; reflexivity. Qed.

Example loads_ints_examples :
  loads_ints (encode "[0,65536]") = inr [0; 65536] ∧
  loads_ints (encode "[]") = inr [] ∧
  loads_ints (encode "nbdinfo: error") = inl (JSONDecodeError "Expecting value" 0).
Proof. repeat split; reflexivity. Qed.

Example create_cmd_example :
  qemuHelper.create_cmd (VStr "/tmp/r.qcow2") (VInt 1048576) (VStr "qcow2")
  = ["qemu-img"; "create"; "-f"; "qcow2"; "/tmp/r.qcow2"; "1048576"].
Proof. reflexivity. Qed.

Example runcmd_disconnect_fails :
  qemuHelper.disconnect (py:=example_runtime) export0 (VStr "/dev/nbd0")
    (world_of ∅ silent_failure)
  = Raise (ProcessError "Unable to start [qemu-nbd] error: []")
      (mkWorld {[ "/tmp/qemu-nbdk3x9_a0b.log" := [] ]} "/tmp" ["w8s1hq2z"]
         (λ _, inr silent_failure)).
Proof. vm_compute. reflexivity. Qed.

(** ** Reading logs and pipes *)

Section Launcher.
Context `{py : PyRuntime}.
Import qemuHelper.

Lemma append_assoc (s1 s2 s3 : string) :
  (s1 +:+ s2) +:+ s3 = s1 +:+ (s2 +:+ s3).
Proof.
  induction s1 as [|a s1 IH]; [done|].
  change (String a ((s1 +:+ s2) +:+ s3) = String a (s1 +:+ (s2 +:+ s3))).
  by rewrite IH.
Qed.

Lemma start_failure_contains prog diag :
  contains prog (start_failure prog diag) ∧
  contains diag (start_failure prog diag).
Proof.
  split.
  - exists "Unable to start [", ("] error: [" +:+ diag +:+ "]"). reflexivity.
  - exists ("Unable to start [" +:+ prog +:+ "] error: ["), "]".
    unfold start_failure. by rewrite !append_assoc.
Qed.

Lemma read_failure_contains cmd e : contains cmd (read_failure cmd e).
Proof.
  exists "Error executing [",
    ("] Unable to get error message: " +:+ str_exn e).
  reflexivity.
Qed.

Lemma decode_error b e :
  decode b = inl e → ∃ pos, e = UnicodeDecodeError pos.
Proof.
  unfold decode. destruct (utf8_error_at 0 b) as [pos|]; [|done].
  intros [= <-]. by exists pos.
Qed.

Lemma _readlog_found f cmd w b s :
  files w !! f = Some b → decode b = inr s →
  _readlog f cmd w = Return (strip s) w.
Proof.
  intros Hf Hd.
  unfold _readlog, try_except, openfile_read, mbind, M_bind.
  rewrite Hf, Hd. reflexivity.
Qed.

Lemma _readlog_undecodable f cmd w b e :
  files w !! f = Some b → decode b = inl e →
  _readlog f cmd w = Raise (ProcessError (read_failure cmd e)) w.
Proof.
  intros Hf Hd.
  unfold _readlog, try_except, openfile_read, mbind, M_bind.
  rewrite Hf, Hd. reflexivity.
Qed.

Lemma _readlog_missing f cmd w :
  files w !! f = None →
  _readlog f cmd w =
  Raise (ProcessError (read_failure cmd (FileNotFoundError f))) w.
Proof.
  intros Hf.
  unfold _readlog, try_except, openfile_read, mbind, M_bind.
  rewrite Hf. reflexivity.
Qed.

(** Whatever [_readlog] raises is a [ProcessError]; it leaves the world
    as it is and always comes back. *)
Lemma _readlog_outcome f cmd w :
  (∃ s, _readlog f cmd w = Return s w) ∨
  (∃ e, _readlog f cmd w = Raise (ProcessError (read_failure cmd e)) w).
Proof.
  destruct (files w !! f) as [b|] eqn:Hf.
  - destruct (decode b) as [e|s] eqn:Hd.
    + right. exists e. by eapply _readlog_undecodable.
    + left. exists (strip s). by eapply _readlog_found.
  - right. eexists. by apply _readlog_missing.
Qed.

Lemma _readpipe_text p w ob eb o e :
  p_stdout p = Some ob → p_stderr p = Some eb →
  decode ob = inr o → decode eb = inr e →
  _readpipe p w = Return (strip o, strip e) w.
Proof.
  intros Ho He Hdo Hde.
  unfold _readpipe, read_pipe, mbind, M_bind.
  rewrite Ho, He. simpl. rewrite Hdo. simpl. rewrite Hde. reflexivity.
Qed.

(** What [_readpipe] does with two pipes, case by case. *)
Lemma _readpipe_cases p w ob eb :
  p_stdout p = Some ob → p_stderr p = Some eb →
  _readpipe p w =
  match decode ob, decode eb with
  | inl x, _ => Raise x w
  | inr _, inl x => Raise x w
  | inr o, inr e => Return (strip o, strip e) w
  end.
Proof.
  intros Ho He.
  unfold _readpipe, read_pipe, mbind, M_bind.
  rewrite Ho, He. simpl.
  destruct (decode ob); simpl; [done|]. by destruct (decode eb).
Qed.

Lemma write_all_is_Some ws (fs : gmap string bytes) k :
  is_Some (fs !! k) → is_Some (write_all ws fs !! k).
Proof.
  revert fs. induction ws as [|[k' v] ws IH]; intros fs Hk; [done|].
  simpl. apply IH. simpl.
  destruct (decide (k' = k)) as [->|Hne].
  - rewrite lookup_insert_eq. eauto.
  - by rewrite lookup_insert_ne.
Qed.

(** ** The launch *)

Lemma launch_pipe_inv cmdLine w name p w1 :
  launch cmdLine true w = Return (name, p) w1 →
  name = None ∧ cmdLine ≠ [] ∧
  ∃ c, spawn w cmdLine = inr c ∧
       p = mkPopen cmdLine (child_pid c) (Some (printed Stdout c))
             (Some (printed Stderr c)) (child_term c) ∧
       w1 = set_files (write_all (child_writes c) (files w)) w.
Proof.
  unfold launch, Popen, mbind, M_bind, mret, M_ret. simpl.
  destruct cmdLine as [|prog rest]; [done|].
  destruct (spawn w (prog :: rest)) as [e|c] eqn:Hs; [done|].
  intros [= <- <- <-]. repeat split; [done|]. by exists c.
Qed.

Lemma launch_file_inv cmdLine w name p w1 :
  launch cmdLine false w = Return (name, p) w1 →
  ∃ prog rest path names c,
    cmdLine = prog :: rest ∧
    fresh_name (files w) (tmpdir w) prog ".log" (tmpnames w)
      = Some (path, names) ∧
    name = Some path ∧
    spawn w cmdLine = inr c ∧
    p = mkPopen cmdLine (child_pid c) None None (child_term c) ∧
    w1 = mkWorld
           (write_all (child_writes c)
              (<[path := printed_all c]> (<[path := []]> (files w))))
           (tmpdir w) names (spawn w).
Proof.
  unfold launch, Popen, NamedTemporaryFile, mbind, M_bind, mret, M_ret.
  destruct cmdLine as [|prog rest]; [done|]. simpl.
  destruct (fresh_name _ _ _ _ _) as [[path names]|] eqn:Hn; [|done].
  simpl.
  destruct (spawn w (prog :: rest)) as [e|c] eqn:Hs; [done|].
  intros [= <- <- <-]. by exists prog, rest, path, names, c.
Qed.

(** In file mode the log file is there when the child has ended. *)
Lemma launch_file_log cmdLine w name p w1 :
  launch cmdLine false w = Return (name, p) w1 →
  ∃ path b, name = Some path ∧ files w1 !! path = Some b ∧
            p_stdout p = None ∧ p_stderr p = None.
Proof.
  intros (prog & rest & path & names & c & _ & _ & -> & _ & -> & ->)
    %launch_file_inv.
  destruct (write_all_is_Some (child_writes c)
              (<[path := printed_all c]> (<[path := []]> (files w))) path)
    as [b Hb].
  { rewrite lookup_insert_eq. eauto. }
  by exists path, b.
Qed.

Lemma launch_pipe_streams cmdLine w name p w1 :
  launch cmdLine true w = Return (name, p) w1 →
  name = None ∧ ∃ ob eb, p_stdout p = Some ob ∧ p_stderr p = Some eb.
Proof.
  intros (-> & _ & c & _ & -> & _)%launch_pipe_inv.
  split; [done|]. by eexists _, _.
Qed.

Lemma launch_nonempty cmdLine toPipe w name p w1 :
  launch cmdLine toPipe w = Return (name, p) w1 →
  ∃ prog, head cmdLine = Some prog.
Proof.
  destruct toPipe.
  - intros (_ & Hne & _)%launch_pipe_inv.
    destruct cmdLine; [done|]. by eexists.
  - intros (prog & rest & ? & ? & ? & -> & _)%launch_file_inv. by eexists.
Qed.

Lemma item0_head cmdLine prog w :
  head cmdLine = Some prog → item0 cmdLine w = Return prog w.
Proof. destruct cmdLine; [done|]. by intros [= ->]. Qed.

End Launcher.

(** ** [runcmd], phase by phase *)

Section Runcmd.
Context `{py : PyRuntime}.
Import qemuHelper.

Lemma Popen_args args to w p w1 :
  Popen args to w = Return p w1 → p_args p = args.
Proof.
  unfold Popen. destruct args as [|a l]; [discriminate|].
  destruct (spawn w (a :: l)); [discriminate|].
  intros [= <- _]. reflexivity.
Qed.

(** Leaving the [with] block of a child that has ended changes nothing. *)
Local Ltac finish :=
  match goal with
  | |- match ?r with _ => _ end = _ =>
      transitivity r; [by destruct r | reflexivity]
  end.

(** [runcmd] is its launch, then the bounded wait, then one of the two
    branches. *)
Lemma runcmd_phases cmdLine pidFile toPipe w :
  runcmd cmdLine pidFile toPipe w =
  match launch cmdLine toPipe w with
  | Return (name, p) w1 =>
      match p_term p with
      | Exits after rc =>
          if (after <=? 5)%N then
            if decide (rc ≠ 0) then failed cmdLine toPipe name p w1
            else succeeded pidFile toPipe name p w1
          else Raise (TimeoutExpired cmdLine 5) w1
      | NeverExits => Hang
      end
  | Raise e w1 => Raise e w1
  | Hang => Hang
  end.
Proof.
  unfold runcmd, launch, with_Popen, start_failure, mbind, M_bind, mret, M_ret.
  destruct toPipe.
  - destruct (Popen cmdLine PIPE w) as [p w1| |] eqn:HP; try done.
    apply Popen_args in HP.
    unfold wait, raise, failed, succeeded, resolve_pid, mbind, M_bind, mret,
      M_ret.
    destruct (p_term p) as [after rc|]; [|done].
    destruct (after <=? 5)%N; [|by rewrite HP].
    simpl. destruct (decide (rc ≠ 0)); finish.
  - destruct (item0 cmdLine w) as [prefix w0| |]; try done.
    destruct (NamedTemporaryFile prefix ".log" w0) as [name w0'| |]; try done.
    destruct (Popen cmdLine (ToFile name) w0') as [p w1| |] eqn:HP; try done.
    apply Popen_args in HP.
    unfold wait, raise, failed, succeeded, resolve_pid, mbind, M_bind, mret,
      M_ret.
    destruct (p_term p) as [after rc|]; [|done].
    destruct (after <=? 5)%N; [|by rewrite HP].
    simpl. destruct (decide (rc ≠ 0)); finish.
Qed.

Lemma runcmd_failed cmdLine pidFile toPipe w name p w1 after rc :
  launch cmdLine toPipe w = Return (name, p) w1 →
  p_term p = Exits after rc → (after ≤ 5)%N → rc ≠ 0 →
  runcmd cmdLine pidFile toPipe w = failed cmdLine toPipe name p w1.
Proof.
  intros HL HT Hle Hrc. rewrite runcmd_phases, HL, HT.
  apply N.leb_le in Hle. rewrite Hle. by destruct (decide (rc ≠ 0)).
Qed.

Lemma runcmd_succeeded cmdLine pidFile toPipe w name p w1 after :
  launch cmdLine toPipe w = Return (name, p) w1 →
  p_term p = Exits after 0 → (after ≤ 5)%N →
  runcmd cmdLine pidFile toPipe w = succeeded pidFile toPipe name p w1.
Proof.
  intros HL HT Hle. rewrite runcmd_phases, HL, HT.
  apply N.leb_le in Hle. rewrite Hle. by destruct (decide (0 ≠ 0)).
Qed.

(** A child that is still running when the bound is reached. *)
Lemma runcmd_wait_bound cmdLine pidFile toPipe w name p w1 after rc :
  launch cmdLine toPipe w = Return (name, p) w1 →
  p_term p = Exits after rc → (5 < after)%N →
  runcmd cmdLine pidFile toPipe w = Raise (TimeoutExpired cmdLine 5) w1.
Proof.
  intros HL HT Hlt. rewrite runcmd_phases, HL, HT.
  apply N.leb_gt in Hlt. by rewrite Hlt.
Qed.

(** A handle comes from the branch for return code 0 only. *)
Lemma runcmd_Return_inv cmdLine pidFile toPipe w h w' :
  runcmd cmdLine pidFile toPipe w = Return h w' →
  ∃ name p w1 after rc,
    launch cmdLine toPipe w = Return (name, p) w1 ∧
    p_term p = Exits after rc ∧ (after ≤ 5)%N ∧
    if decide (rc ≠ 0) then failed cmdLine toPipe name p w1 = Return h w'
    else rc = 0 ∧ succeeded pidFile toPipe name p w1 = Return h w'.
Proof.
  rewrite runcmd_phases.
  destruct (launch cmdLine toPipe w) as [[name p] w1| |]; try done.
  destruct (p_term p) as [after rc|] eqn:HT; [|done].
  destruct (after <=? 5)%N eqn:Hle; [|done].
  apply N.leb_le in Hle. intros Hr.
  exists name, p, w1, after, rc. repeat split; try done.
  destruct (decide (rc ≠ 0)) as [|Hz]; [done|].
  split; [|done]. by destruct (decide (rc = 0)).
Qed.

(** *** The branch for a return code other than 0 *)

Lemma failed_file cmdLine prog path p w1 b :
  head cmdLine = Some prog → files w1 !! path = Some b →
  failed cmdLine false (Some path) p w1 =
  Raise (ProcessError
           match decode b with
           | inr s => start_failure prog (strip s)
           | inl e => read_failure prog e
           end) w1.
Proof.
  intros Hh Hb. unfold failed, mbind, M_bind.
  rewrite (item0_head _ _ _ Hh).
  destruct (decode b) as [e|s] eqn:Hd.
  - by rewrite (_readlog_undecodable _ _ _ _ _ Hb Hd).
  - rewrite (_readlog_found _ _ _ _ _ Hb Hd).
    by rewrite (item0_head _ _ _ Hh).
Qed.

Lemma failed_pipe cmdLine prog name p w1 ob eb :
  head cmdLine = Some prog →
  p_stdout p = Some ob → p_stderr p = Some eb →
  failed cmdLine true name p w1 =
  match decode ob, decode eb with
  | inl x, _ => Raise x w1
  | inr _, inl x => Raise x w1
  | inr _, inr e => Raise (ProcessError (start_failure prog (strip e))) w1
  end.
Proof.
  intros Hh Ho He. unfold failed, mbind, M_bind.
  rewrite (_readpipe_cases _ _ _ _ Ho He).
  destruct (decode ob); [done|]. destruct (decode eb); [done|].
  simpl. by rewrite (item0_head _ _ _ Hh).
Qed.

Lemma failed_no_handle cmdLine toPipe name p w1 h w' :
  failed cmdLine toPipe name p w1 ≠ Return h w'.
Proof.
  unfold failed, mbind, M_bind, raise.
  destruct toPipe.
  - destruct (_readpipe p w1) as [oe w2| |]; try done.
    simpl. by destruct (item0 cmdLine w2).
  - destruct name as [n|]; [|done].
    destruct (item0 cmdLine w1) as [prog w2| |]; try done.
    destruct (_readlog n prog w2) as [s w3| |]; try done.
    by destruct (item0 cmdLine w3).
Qed.

(** *** The branch for return code 0 *)

Lemma resolve_pid_own p w : resolve_pid None p w = Return (Z.pos (p_pid p)) w.
Proof. reflexivity. Qed.

Lemma resolve_pid_file f p w b s n :
  files w !! f = Some b → decode b = inr s →
  int_of_str (strip s) = Some n →
  resolve_pid (Some f) p w = Return n w.
Proof.
  intros Hb Hd Hn. unfold resolve_pid, mbind, M_bind.
  rewrite (_readlog_found _ _ _ _ _ Hb Hd), Hn. reflexivity.
Qed.

Lemma resolve_pid_not_a_number f p w b s :
  files w !! f = Some b → decode b = inr s →
  int_of_str (strip s) = None →
  resolve_pid (Some f) p w = Raise (ValueError (strip s)) w.
Proof.
  intros Hb Hd Hn. unfold resolve_pid, mbind, M_bind.
  rewrite (_readlog_found _ _ _ _ _ Hb Hd), Hn. reflexivity.
Qed.

Lemma resolve_pid_missing f p w :
  files w !! f = None →
  resolve_pid (Some f) p w =
  Raise (ProcessError (read_failure "" (FileNotFoundError f))) w.
Proof.
  intros Hb. unfold resolve_pid, mbind, M_bind.
  by rewrite (_readlog_missing _ _ _ Hb).
Qed.

Lemma resolve_pid_undecodable f p w b e :
  files w !! f = Some b → decode b = inl e →
  resolve_pid (Some f) p w = Raise (ProcessError (read_failure "" e)) w.
Proof.
  intros Hb Hd. unfold resolve_pid, mbind, M_bind.
  by rewrite (_readlog_undecodable _ _ _ _ _ Hb Hd).
Qed.

Lemma resolve_pid_Return_inv pidFile p w n w' :
  resolve_pid pidFile p w = Return n w' →
  w' = w ∧
  match pidFile with
  | None => n = Z.pos (p_pid p)
  | Some f => ∃ b s, files w !! f = Some b ∧ decode b = inr s ∧
                     int_of_str (strip s) = Some n
  end.
Proof.
  destruct pidFile as [f|]; [|by intros [= <- <-]].
  unfold resolve_pid, mbind, M_bind.
  destruct (files w !! f) as [b|] eqn:Hb.
  - destruct (decode b) as [e|s] eqn:Hd.
    + by rewrite (_readlog_undecodable _ _ _ _ _ Hb Hd).
    + rewrite (_readlog_found _ _ _ _ _ Hb Hd).
      destruct (int_of_str (strip s)) as [m|] eqn:Hm; [|done].
      intros [= <- <-]. split; [done|]. by exists b, s.
  - by rewrite (_readlog_missing _ _ _ Hb).
Qed.

Lemma succeeded_file pidFile name p w1 :
  succeeded pidFile false name p w1 =
  match resolve_pid pidFile p w1 with
  | Return n w2 => Return (handle n name None) w2
  | Raise e w2 => Raise e w2
  | Hang => Hang
  end.
Proof. reflexivity. Qed.

Lemma succeeded_pipe pidFile name p w1 ob eb o e :
  p_stdout p = Some ob → p_stderr p = Some eb →
  decode ob = inr o → decode eb = inr e →
  succeeded pidFile true name p w1 =
  match resolve_pid pidFile p w1 with
  | Return n w2 => Return (handle n name (Some (strip o, strip e))) w2
  | Raise x w2 => Raise x w2
  | Hang => Hang
  end.
Proof.
  intros Ho He Hdo Hde. unfold succeeded, mbind, M_bind.
  by rewrite (_readpipe_text _ _ _ _ _ _ Ho He Hdo Hde).
Qed.

Lemma succeeded_Return_inv pidFile toPipe name p w1 h w' :
  succeeded pidFile toPipe name p w1 = Return h w' →
  ∃ cap, h = handle (pid h) name cap ∧
         (if toPipe then is_Some cap else cap = None) ∧
         resolve_pid pidFile p w1 = Return (pid h) w'.
Proof.
  unfold succeeded, mbind, M_bind. destruct toPipe.
  - destruct (_readpipe p w1) as [[o e] w2| |] eqn:Hrp; try done.
    assert (w2 = w1) as ->.
    { revert Hrp. unfold _readpipe, read_pipe, mbind, M_bind, lift.
      destruct (p_stdout p); [|done]. simpl.
      destruct (decode _); [done|]. simpl.
      destruct (p_stderr p); [|done]. simpl.
      destruct (decode _); [done|]. by intros [= _ _ ->]. }
    simpl. destruct (resolve_pid pidFile p w1) as [n w3| |]; try done.
    intros [= <- <-]. by exists (Some (o, e)).
  - simpl. destruct (resolve_pid pidFile p w1) as [n w3| |]; try done.
    intros [= <- <-]. by exists None.
Qed.

End Runcmd.

(** ** The launcher *)

Section LauncherClaims.
Context `{py : PyRuntime}.
Import qemuHelper.

Lemma launch_pid cmdLine toPipe w name p w1 c :
  launch cmdLine toPipe w = Return (name, p) w1 →
  spawn w cmdLine = inr c →
  p_pid p = child_pid c ∧ p_term p = child_term c.
Proof.
  destruct toPipe.
  - intros (_ & _ & c' & Hs & -> & _)%launch_pipe_inv Hc.
    rewrite Hs in Hc. by injection Hc as ->.
  - intros (? & ? & ? & ? & c' & _ & _ & _ & Hs & -> & _)%launch_file_inv Hc.
    rewrite Hs in Hc. by injection Hc as ->.
Qed.

(** With text in the pipes, the branch for return code 0 stands or falls
    with the pid. *)
Lemma succeeded_resolve cmdLine pidFile toPipe w name p w1 :
  launch cmdLine toPipe w = Return (name, p) w1 →
  pipes_decode p →
  ∃ cap, (if toPipe then is_Some cap else cap = None) ∧
    succeeded pidFile toPipe name p w1 =
    match resolve_pid pidFile p w1 with
    | Return n w2 => Return (handle n name cap) w2
    | Raise e w2 => Raise e w2
    | Hang => Hang
    end.
Proof.
  intros HL Hdec. destruct toPipe.
  - destruct (launch_pipe_streams _ _ _ _ _ HL) as (_ & ob & eb & Ho & He).
    destruct (Hdec ob (or_introl Ho)) as [o Hdo].
    destruct (Hdec eb (or_intror He)) as [e Hde].
    exists (Some (strip o, strip e)). split; [by eexists|].
    by apply succeeded_pipe with ob eb.
  - exists None. split; [done|]. apply succeeded_file.
Qed.

Lemma runcmd_handle_shape cmdLine pidFile toPipe w h w' :
  runcmd cmdLine pidFile toPipe w = Return h w' →
  ∃ name p after,
    launch cmdLine toPipe w = Return (name, p) w' ∧
    p_term p = Exits after 0 ∧ (after ≤ 5)%N ∧
    logFile h = name ∧
    resolve_pid pidFile p w' = Return (pid h) w' ∧
    if toPipe then name = None ∧ is_Some (err h) ∧ is_Some (out h)
    else is_Some name ∧ err h = None ∧ out h = None.
Proof.
  intros (name & p & w1 & after & rc & HL & HT & Hle & Hbr)%runcmd_Return_inv.
  destruct (decide (rc ≠ 0)) as [|_]; [by apply failed_no_handle in Hbr|].
  destruct Hbr as [-> Hs].
  apply succeeded_Return_inv in Hs as (cap & Hh & Hcap & Hpid).
  destruct (resolve_pid_Return_inv _ _ _ _ _ Hpid) as [-> _].
  exists name, p, after. repeat split; try done.
  - by rewrite Hh.
  - destruct toPipe.
    + destruct (launch_pipe_streams _ _ _ _ _ HL) as [-> _].
      destruct Hcap as [[o e] ->]. rewrite Hh. simpl. by eauto.
    + destruct (launch_file_log _ _ _ _ _ HL) as (path & b & -> & _).
      subst cap. rewrite Hh. simpl. by eauto.
Qed.

(** C1 (amended): for every launch through [runcmd], in both capture
    modes, if the process that was started ends within the wait bound
    with a return code other than 0, no handle is returned.  In file
    mode the call raises [ProcessError]; its text contains the program
    name (the first element of the argument vector) and, where the log
    file decodes, it is the start-failure text around the trimmed log,
    which may be empty.  In pipe mode, where both pipes decode, the call
    raises [ProcessError] with the start-failure text around the
    program name and the trimmed standard error, which may be empty. *)
Theorem nonzero_exit_raises_ProcessError
    cmdLine pidFile toPipe w name p w1 prog after rc :
  launch cmdLine toPipe w = Return (name, p) w1 →
  head cmdLine = Some prog →
  p_term p = Exits after rc → (after ≤ 5)%N → rc ≠ 0 →
  let r := runcmd cmdLine pidFile toPipe w in
  (∀ h w', r ≠ Return h w') ∧
  (toPipe = false →
     ∃ path b msg,
       name = Some path ∧ files w1 !! path = Some b ∧
       r = Raise (ProcessError msg) w1 ∧ contains prog msg ∧
       ∀ s, decode b = inr s →
            msg = start_failure prog (strip s) ∧ contains (strip s) msg) ∧
  (toPipe = true →
     ∃ ob eb,
       p_stdout p = Some ob ∧ p_stderr p = Some eb ∧
       ∀ o e, decode ob = inr o → decode eb = inr e →
         ∃ msg, r = Raise (ProcessError msg) w1 ∧
                msg = start_failure prog (strip e) ∧
                contains prog msg ∧ contains (strip e) msg).
Proof.
  intros HL Hh HT Hle Hrc r. subst r.
  rewrite (runcmd_failed _ pidFile _ _ _ _ _ _ _ HL HT Hle Hrc).
  split; [intros h w'; apply failed_no_handle|]. split.
  - intros ->.
    destruct (launch_file_log _ _ _ _ _ HL) as (path & b & -> & Hb & _).
    exists path, b. eexists. split; [done|]. split; [done|].
    split; [by apply failed_file|]. split.
    + destruct (decode b); [apply read_failure_contains|].
      apply start_failure_contains.
    + intros s ->. split; [done|]. apply start_failure_contains.
  - intros ->.
    destruct (launch_pipe_streams _ _ _ _ _ HL) as (_ & ob & eb & Ho & He).
    exists ob, eb. split; [done|]. split; [done|].
    intros o e Hdo Hde. eexists. split.
    + rewrite (failed_pipe _ _ _ _ _ _ _ Hh Ho He), Hdo, Hde. reflexivity.
    + split; [done|]. apply start_failure_contains.
Qed.

(** C2 (amended): a handle is returned only by a launch whose process
    ended within the wait bound with return code 0.  Its pid is the
    identifier of that process, which is positive, when no pid-file was
    asked for, and otherwise the integer read from the pid-file, of
    whatever sign.  In file mode the log-file path is set and the
    captured output and error text are absent; in pipe mode both
    captured texts are set and the log-file path is absent. *)
Theorem returned_handle_shape cmdLine pidFile toPipe w h w' :
  runcmd cmdLine pidFile toPipe w = Return h w' →
  (∃ name p after,
     launch cmdLine toPipe w = Return (name, p) w' ∧
     p_term p = Exits after 0 ∧ (after ≤ 5)%N ∧
     match pidFile with
     | None => pid h = Z.pos (p_pid p) ∧ 0 < pid h
     | Some f => ∃ b s, files w' !! f = Some b ∧ decode b = inr s ∧
                        int_of_str (strip s) = Some (pid h)
     end) ∧
  (if toPipe
   then logFile h = None ∧ is_Some (err h) ∧ is_Some (out h)
   else is_Some (logFile h) ∧ err h = None ∧ out h = None).
Proof.
  intros (name & p & after & HL & HT & Hle & Hn & Hpid & Hmode)
    %runcmd_handle_shape.
  split.
  - exists name, p, after. repeat split; try done.
    apply resolve_pid_Return_inv in Hpid as [_ Hpid].
    destruct pidFile; [done|]. split; [done|]. rewrite Hpid. lia.
  - rewrite Hn. by destruct toPipe.
Qed.

(** C3 (amended): for every launch through [runcmd] with a pid-file path
    whose process ends within the wait bound with return code 0 (and
    whose pipes, in pipe mode, decode), no handle is returned when the
    pid-file is unusable: if the file is absent or does not decode, the
    call raises [ProcessError], the error of a failed log read; if its
    trimmed text is no integer literal, the call raises [ValueError],
    which is not a [ProcessError]. *)
Theorem unusable_pidfile_raises cmdLine f toPipe w name p w1 after :
  launch cmdLine toPipe w = Return (name, p) w1 →
  p_term p = Exits after 0 → (after ≤ 5)%N →
  pipes_decode p →
  let r := runcmd cmdLine (Some f) toPipe w in
  (files w1 !! f = None →
     r = Raise (ProcessError (read_failure "" (FileNotFoundError f))) w1) ∧
  (∀ b e, files w1 !! f = Some b → decode b = inl e →
     r = Raise (ProcessError (read_failure "" e)) w1) ∧
  (∀ b s, files w1 !! f = Some b → decode b = inr s →
     int_of_str (strip s) = None →
     r = Raise (ValueError (strip s)) w1 ∧
     is_ProcessError (ValueError (strip s)) = false).
Proof.
  intros HL HT Hle Hdec r. subst r.
  rewrite (runcmd_succeeded _ _ _ _ _ _ _ _ HL HT Hle).
  destruct (succeeded_resolve _ (Some f) _ _ _ _ _ HL Hdec) as (cap & _ & ->).
  split; [|split].
  - intros Hf. by rewrite (resolve_pid_missing _ _ _ Hf).
  - intros b e Hf Hd. by rewrite (resolve_pid_undecodable _ _ _ _ _ Hf Hd).
  - intros b s Hf Hd Hn.
    by rewrite (resolve_pid_not_a_number _ _ _ _ _ Hf Hd Hn).
Qed.

(** C4: for every launch through [runcmd] whose process ends within the
    wait bound with return code 0 (and whose pipes, in pipe mode,
    decode): with a pid-file path whose file holds an integer, a handle
    is returned and its pid is that integer; with no pid-file path, a
    handle is returned and its pid is the identifier of the process
    that was started.  And whenever a handle is returned for a launch
    with a pid-file path, its pid is the integer in that file. *)
Theorem pid_resolution cmdLine toPipe w name p w1 after :
  launch cmdLine toPipe w = Return (name, p) w1 →
  p_term p = Exits after 0 → (after ≤ 5)%N →
  pipes_decode p →
  (∀ f b s n, files w1 !! f = Some b → decode b = inr s →
     int_of_str (strip s) = Some n →
     ∃ h, runcmd cmdLine (Some f) toPipe w = Return h w1 ∧ pid h = n) ∧
  (∃ h, runcmd cmdLine None toPipe w = Return h w1 ∧
        pid h = Z.pos (p_pid p)) ∧
  (∀ c, spawn w cmdLine = inr c → p_pid p = child_pid c) ∧
  (∀ f h w', runcmd cmdLine (Some f) toPipe w = Return h w' →
     ∃ b s, files w' !! f = Some b ∧ decode b = inr s ∧
            int_of_str (strip s) = Some (pid h)).
Proof.
  intros HL HT Hle Hdec. split; [|split; [|split]].
  - intros f b s n Hf Hd Hn.
    rewrite (runcmd_succeeded _ _ _ _ _ _ _ _ HL HT Hle).
    destruct (succeeded_resolve _ (Some f) _ _ _ _ _ HL Hdec)
      as (cap & _ & ->).
    rewrite (resolve_pid_file _ _ _ _ _ _ Hf Hd Hn). by eexists.
  - rewrite (runcmd_succeeded _ _ _ _ _ _ _ _ HL HT Hle).
    destruct (succeeded_resolve _ None _ _ _ _ _ HL Hdec) as (cap & _ & ->).
    rewrite resolve_pid_own. by eexists.
  - intros c Hc. by destruct (launch_pid _ _ _ _ _ _ _ HL Hc).
  - intros f h w'
      (name' & p' & after' & _ & _ & _ & _ & Hpid & _)%runcmd_handle_shape.
    by apply resolve_pid_Return_inv in Hpid as [_ Hpid].
Qed.


End LauncherClaims.

(** ** The public operations *)

Section OperationClaims.
Context `{py : PyRuntime}.
Import qemuHelper.

(** C8: each of [create], [startRestoreNbdServer], [startNbdkitProcess],
    [startBackupNbdServer] and [disconnect] calls [runcmd] without
    [toPipe], whose default is [False]; so a handle any of them returns
    has its log-file path set and neither captured text. *)
Theorem public_operations_capture_to_file self op w h w' :
  invoke self op w = Return h w' →
  toPipe_default = false ∧
  (∃ cmdLine pidFile w0,
     runcmd cmdLine pidFile toPipe_default w0 = Return h w') ∧
  is_Some (logFile h) ∧ err h = None ∧ out h = None.
Proof.
  intros Hop. split; [done|].
  assert (∃ cmdLine pidFile w0,
            runcmd cmdLine pidFile toPipe_default w0 = Return h w')
    as (cmdLine & pidFile & w0 & Hrun).
  { destruct op; simpl in Hop.
    - by eexists _, _, _.
    - by eexists _, _, _.
    - unfold startNbdkitProcess, mbind, M_bind in Hop.
      destruct (startNbdkitProcess_cmd _ _ _ _ _ w) as [[pf cmd] w0| |];
        try done.
      by eexists _, _, _.
    - by eexists _, _, _.
    - by eexists _, _, _. }
  split; [by eexists _, _, _|].
  apply runcmd_handle_shape in Hrun
    as (name & p & after & _ & _ & _ & <- & _ & Hmode).
  exact Hmode.
Qed.


(** C9: [map] does not go through [runcmd]: it hands its command to the
    shell and waits for it without a bound, so it never returns when
    the shell never ends, and it comes back however late the shell
    ends; no log file is made; and a return code other than 0 comes out
    as [CalledProcessError], which is not a [ProcessError]. *)
Theorem map_bypasses_launcher self cType w c :
  spawn w ["/bin/sh"; "-c"; map_cmd cType] = inr c →
  let w1 := set_files (write_all (child_writes c) (files w)) w in
  (child_term c = NeverExits → map self cType w = Hang) ∧
  (∀ after rc, child_term c = Exits after rc → rc ≠ 0 →
     map self cType w =
       Raise (CalledProcessError rc (map_cmd cType) (printed Stdout c)
                (printed Stderr c)) w1 ∧
     is_ProcessError (CalledProcessError rc (map_cmd cType)
                        (printed Stdout c) (printed Stderr c)) = false) ∧
  (∀ after, child_term c = Exits after 0 →
     map self cType w = lift (json_loads (printed Stdout c)) w1) ∧
  tmpnames w1 = tmpnames w.
Proof.
  intros Hs w1. split; [|split; [|split]].
  - intros HT.
    unfold map, subprocess_run, with_Popen, Popen, mbind, M_bind.
    rewrite Hs. simpl. by rewrite HT.
  - intros after rc HT Hrc. split; [|done].
    unfold map, subprocess_run, with_Popen, Popen, mbind, M_bind.
    rewrite Hs. simpl. rewrite HT. simpl.
    by destruct (decide (rc ≠ 0)).
  - intros after HT.
    unfold map, subprocess_run, with_Popen, Popen, mbind, M_bind.
    rewrite Hs. simpl. rewrite HT. reflexivity.
  - reflexivity.
Qed.

End OperationClaims.

(** ** The command lines *)

Section BuilderClaims.
Import qemuHelper.


Lemma fresh_name_free fs dir pre suf cands path rest :
  fresh_name fs dir pre suf cands = Some (path, rest) → fs !! path = None.
Proof.
  induction cands as [|c cands IH]; [done|]. simpl.
  destruct (fs !! (dir +:+ "/" +:+ pre +:+ c +:+ suf)) eqn:Hc; [done|].
  by intros [= <- _].
Qed.

Lemma NamedTemporaryFile_Return prefix suffix w path w1 :
  NamedTemporaryFile prefix suffix w = Return path w1 →
  files w !! path = None ∧ files w1 !! path = Some [].
Proof.
  unfold NamedTemporaryFile.
  destruct (fresh_name _ _ _ _ _) as [[q rest]|] eqn:Hn; [|done].
  intros [= <- <-]. split; [by eapply fresh_name_free|].
  apply lookup_insert_eq.
Qed.

Lemma NamedTemporaryFile_cases prefix suffix w :
  NamedTemporaryFile prefix suffix w = Raise FileExistsError w ∨
  ∃ path w1, NamedTemporaryFile prefix suffix w = Return path w1.
Proof.
  unfold NamedTemporaryFile.
  destruct (fresh_name _ _ _ _ _) as [[q rest]|]; [right|left]; eauto.
Qed.

(** What [startNbdkitProcess] builds is its pid-file and a command line
    that names it in third place. *)
Lemma build_nbdkit_Return self args nbdkitModule blockMap fullImage w v w1 :
  build self (BuildNbdkit args nbdkitModule blockMap fullImage) w
    = Return v w1 →
  ∃ pidFile,
    NamedTemporaryFile "nbdkit" ".pid" w = Return pidFile w1 ∧
    startNbdkitProcess_cmd self args nbdkitModule blockMap fullImage w
      = Return (pidFile, match v with Argv cmd => cmd | _ => [] end) w1 ∧
    ∃ cmd, v = Argv cmd ∧ cmd !! 2%nat = Some pidFile.
Proof.
  simpl. unfold startNbdkitProcess_cmd, mbind, M_bind.
  destruct (NamedTemporaryFile "nbdkit" ".pid" w) as [pidFile w0| |];
    try done.
  intros [= <- <-]. exists pidFile. repeat split. by eexists.
Qed.


(** C7 (amended): the builders of [map], [create],
    [startRestoreNbdServer], [startBackupNbdServer] and [disconnect]
    are functions of their inputs alone: they give the same command
    line in every world, touch nothing and cannot fail.  The builder of
    [startNbdkitProcess] makes a temporary pid-file: it fails when none
    can be made; else the file is new and named in third place of the
    command line, a second call after it gives a different command
    line, and two calls that got the same pid-file give the same
    command line. *)
Theorem builders_determinism self :
  (∀ req, is_BuildNbdkit req = false → pure_builder self req) ∧
  (∀ args nbdkitModule blockMap fullImage w,
     let req := BuildNbdkit args nbdkitModule blockMap fullImage in
     build self req w = Raise FileExistsError w ∨
     ∃ pidFile cmd w1,
       build self req w = Return (Argv cmd) w1 ∧
       cmd !! 2%nat = Some pidFile ∧
       files w !! pidFile = None ∧ files w1 !! pidFile = Some [] ∧
       ∀ v2 w2, build self req w1 = Return v2 w2 → v2 ≠ Argv cmd) ∧
  (∀ args nbdkitModule blockMap fullImage w w1 w' w1' cmd cmd',
     let req := BuildNbdkit args nbdkitModule blockMap fullImage in
     build self req w = Return (Argv cmd) w1 →
     build self req w' = Return (Argv cmd') w1' →
     cmd !! 2%nat = cmd' !! 2%nat → cmd = cmd').
Proof.
  split; [|split].
  - intros [] Hreq; try done; by eexists.
  - intros args nbdkitModule blockMap fullImage w req.
    destruct (build self req w) as [v w1|e w1|] eqn:Hb.
    + right.
      destruct (build_nbdkit_Return _ _ _ _ _ _ _ _ Hb)
        as (pidFile & Ht & _ & cmd & -> & H2).
      apply NamedTemporaryFile_Return in Ht as [Hnew Hmade].
      exists pidFile, cmd, w1. repeat split; try done.
      intros v2 w2 Hb2 ->.
      destruct (build_nbdkit_Return _ _ _ _ _ _ _ _ Hb2)
        as (pidFile2 & Ht2 & _ & cmd2 & [= <-] & H22).
      apply NamedTemporaryFile_Return in Ht2 as [Hnew2 _].
      congruence.
    + left. revert Hb. subst req. simpl.
      unfold startNbdkitProcess_cmd, mbind, M_bind.
      destruct (NamedTemporaryFile_cases "nbdkit" ".pid" w)
        as [->|(path & w2 & ->)]; [|done].
      by intros [= <- <-].
    + revert Hb. subst req. simpl.
      unfold startNbdkitProcess_cmd, mbind, M_bind.
      by destruct (NamedTemporaryFile_cases "nbdkit" ".pid" w)
        as [->|(path & w2 & ->)].
  - intros args nbdkitModule blockMap fullImage w w1 w' w1' cmd cmd' req.
    subst req. simpl. unfold startNbdkitProcess_cmd, mbind, M_bind.
    destruct (NamedTemporaryFile "nbdkit" ".pid" w) as [pf w0| |]; try done.
    destruct (NamedTemporaryFile "nbdkit" ".pid" w') as [pf' w0'| |];
      try done.
    intros [= <- _] [= <- _]. simpl. by intros [= ->].
Qed.

End BuilderClaims.

(** ** The theorems at work, and where the stronger readings fail *)

Lemma nonzero_exit_raises_ProcessError_witness :
  ∃ msg w1,
    qemuHelper.runcmd (py:=example_runtime) ["qemu-nbd"; "-d"; "/dev/nbd0"]
      None false (world_of ∅ (tool "" "qemu-nbd: Cannot open /dev/nbd0" 0 1))
    = Raise (ProcessError msg) w1 ∧
    contains "qemu-nbd" msg.
Proof.
  edestruct (nonzero_exit_raises_ProcessError (py:=example_runtime)
               ["qemu-nbd"; "-d"; "/dev/nbd0"] None false
               (world_of ∅ (tool "" "qemu-nbd: Cannot open /dev/nbd0" 0 1)))
    as (_ & Hfile & _);
    [reflexivity | reflexivity | reflexivity | lia | lia |].
  destruct (Hfile eq_refl) as (path & b & msg & _ & _ & Hr & Hc & _).
  exists msg. eexists. split; [exact Hr | exact Hc].
Defined.

(** A helper that ends with status 1 and has printed nothing: the text
    of the error has nothing between its last brackets. *)
Lemma nonzero_exit_diagnostic_may_be_empty :
  ¬ (∀ cmdLine pidFile toPipe w name p w1 prog after rc,
       launch cmdLine toPipe w = Return (name, p) w1 →
       head cmdLine = Some prog →
       p_term p = Exits after rc → (after ≤ 5)%N → rc ≠ 0 →
       reports_diagnostic prog
         (qemuHelper.runcmd (py:=example_runtime) cmdLine pidFile toPipe w)).
Proof.
  intros Hall.
  edestruct (Hall ["qemu-nbd"; "-d"; "/dev/nbd0"] None false
               (world_of ∅ silent_failure))
    as (diag & w' & Hne & Hr);
    [reflexivity | reflexivity | reflexivity | lia | lia |].
  apply Hne. clear Hne.
  revert Hr. vm_compute (qemuHelper.runcmd _ _ _ _).
  intros [= Hmsg _]. change ("]" = diag +:+ "]") in Hmsg.
  destruct diag as [|a diag]; [done|].
  injection Hmsg as _ Hmsg. by destruct diag.
Qed.

Lemma returned_handle_shape_witness :
  ∃ h w',
    qemuHelper.runcmd (py:=example_runtime)
      ["qemu-img"; "create"; "-f"; "qcow2"; "/tmp/r.qcow2"; "1048576"]
      None false (world_of ∅ (tool "Formatting '/tmp/r.qcow2'" "" 0 0))
    = Return h w' ∧
    0 < pid h ∧ is_Some (logFile h) ∧ err h = None ∧ out h = None.
Proof.
  edestruct (returned_handle_shape (py:=example_runtime)
               ["qemu-img"; "create"; "-f"; "qcow2"; "/tmp/r.qcow2";
                "1048576"]
               None false
               (world_of ∅ (tool "Formatting '/tmp/r.qcow2'" "" 0 0)))
    as [(name & p & after & _ & _ & _ & _ & Hpos) Hmode];
    [reflexivity|].
  eexists _, _. split; [reflexivity|]. split; [exact Hpos | exact Hmode].
Defined.

(** A pid-file that holds [-5]: the handle has pid [-5]. *)
Lemma pidfile_pid_may_be_negative :
  ¬ (∀ cmdLine pidFile toPipe w h w',
       qemuHelper.runcmd (py:=example_runtime) cmdLine pidFile toPipe w
         = Return h w' →
       0 ≤ pid h).
Proof.
  intros Hall.
  refine (_ (Hall ["qemu-nbd"; "--fork"; "--pid-file=/run/nbd.sock.pid"]
               (Some "/run/nbd.sock.pid") false
               (world_of ∅ (daemon "/run/nbd.sock.pid" "-5")) _ _ eq_refl)).
  vm_compute. intros Hle. by apply Hle.
Qed.

Lemma unusable_pidfile_raises_witness :
  ∃ w1,
    qemuHelper.runcmd (py:=example_runtime)
      ["qemu-nbd"; "--fork"; "--pid-file=/run/nbd.sock.pid"]
      (Some "/run/nbd.sock.pid") false
      (world_of ∅ (daemon "/run/other.pid" "4711"))
    = Raise (ProcessError
               (read_failure (py:=example_runtime) ""
                  (FileNotFoundError "/run/nbd.sock.pid"))) w1.
Proof.
  edestruct (unusable_pidfile_raises (py:=example_runtime)
               ["qemu-nbd"; "--fork"; "--pid-file=/run/nbd.sock.pid"]
               "/run/nbd.sock.pid" false
               (world_of ∅ (daemon "/run/other.pid" "4711")))
    as (Hmissing & _ & _);
    [reflexivity | reflexivity | lia | by intros b [Hb|Hb] |].
  eexists. apply Hmissing. reflexivity.
Defined.

(** A pid-file that holds [abc]: the error is a [ValueError]. *)
Lemma nonnumeric_pidfile_is_ValueError :
  ¬ (∀ cmdLine f toPipe w name p w1 after b s,
       launch cmdLine toPipe w = Return (name, p) w1 →
       p_term p = Exits after 0 → (after ≤ 5)%N →
       pipes_decode p →
       files w1 !! f = Some b → decode b = inr s →
       int_of_str (PyRuntime:=example_runtime) (strip s) = None →
       ∃ msg w',
         qemuHelper.runcmd (py:=example_runtime) cmdLine (Some f) toPipe w
         = Raise (ProcessError msg) w').
Proof.
  intros Hall.
  edestruct (Hall ["qemu-nbd"; "--fork"; "--pid-file=/run/nbd.sock.pid"]
               "/run/nbd.sock.pid" false
               (world_of ∅ (daemon "/run/nbd.sock.pid" "abc")))
    as (msg & w' & Hr);
    [reflexivity | reflexivity | lia | by intros b [Hb|Hb]
    | reflexivity | reflexivity | reflexivity |].
  revert Hr. vm_compute (qemuHelper.runcmd _ _ _ _). discriminate.
Qed.

Lemma pid_resolution_witness :
  ∃ h w1,
    qemuHelper.runcmd (py:=example_runtime)
      ["qemu-nbd"; "--fork"; "--pid-file=/run/nbd.sock.pid"]
      (Some "/run/nbd.sock.pid") false
      (world_of ∅ (daemon "/run/nbd.sock.pid" "4711
"))
    = Return h w1 ∧ pid h = 4711.
Proof.
  edestruct (pid_resolution (py:=example_runtime)
               ["qemu-nbd"; "--fork"; "--pid-file=/run/nbd.sock.pid"] false
               (world_of ∅ (daemon "/run/nbd.sock.pid" "4711
")))
    as (Hfile & _);
    [reflexivity | reflexivity | lia | by intros b [Hb|Hb] |].
  edestruct (Hfile "/run/nbd.sock.pid") as (h & Hr & Hpid);
    [reflexivity | reflexivity | reflexivity |].
  exists h. eexists. split; [exact Hr | exact Hpid].
Defined.




(** A disk file that looks like the flag is passed on beside the flag. *)
Example backup_passes_flag_like_disk_file :
  bitmap_flags
    (qemuHelper.startBackupNbdServer_cmd export0 (VStr "qcow2")
       (VStr "--bitmap=x") (VStr "/run/nbd.sock") (VStr "backup1"))
  = 2%nat.
Proof. reflexivity. Qed.


Lemma map_bypasses_launcher_witness :
  qemuHelper.map (py:=example_runtime) export0
    (mkConnection VNone (VStr "nbd+unix:///sda?socket=/run/nbd.sock"))
    (world_of ∅ (Child 4242 [] [] NeverExits))
  = Hang.
Proof.
  edestruct (map_bypasses_launcher (py:=example_runtime) export0
               (mkConnection VNone
                  (VStr "nbd+unix:///sda?socket=/run/nbd.sock"))
               (world_of ∅ (Child 4242 [] [] NeverExits)))
    as (Hnever & _);
    [reflexivity|].
  apply Hnever. reflexivity.
Defined.

Lemma public_operations_capture_to_file_witness :
  ∃ h w',
    invoke (py:=example_runtime) export0
      (Create (VStr "/tmp/r.qcow2") (VInt 1048576) (VStr "qcow2"))
      (world_of ∅ (tool "Formatting '/tmp/r.qcow2'" "" 0 0))
    = Return h w' ∧
    is_Some (logFile h) ∧ err h = None ∧ out h = None.
Proof.
  edestruct (public_operations_capture_to_file (py:=example_runtime) export0
               (Create (VStr "/tmp/r.qcow2") (VInt 1048576) (VStr "qcow2"))
               (world_of ∅ (tool "Formatting '/tmp/r.qcow2'" "" 0 0)))
    as (_ & _ & Hshape);
    [reflexivity|].
  eexists _, _. split; [reflexivity | exact Hshape].
Defined.

Lemma builders_determinism_witness :
  pure_builder export0 (BuildDisconnect (VStr "/dev/nbd0")).
Proof.
  destruct (builders_determinism export0) as (Hpure & _).
  apply Hpure. reflexivity.
Defined.

(** Two calls of the builder of [startNbdkitProcess], one after the
    other: the pid-files differ, and so do the command lines. *)
Lemma plugin_host_builder_not_pure :
  ¬ (∀ self req, pure_builder self req).
Proof.
  intros Hall.
  destruct (Hall export0
              (BuildNbdkit virtnbdmap_args (VStr "/usr/lib/virtnbd.py")
                 (VStr "/tmp/map.json") (VStr "/img/sda.full.data")))
    as [v Hv].
  pose proof (Hv (world_of ∅ silent_failure)) as H1.
  pose proof (Hv (mkWorld {[ "/tmp/nbdkitk3x9_a0b.pid" := [] ]} "/tmp"
                    ["w8s1hq2z"] (λ _, inr silent_failure))) as H2.
  vm_compute in H1. vm_compute in H2. congruence.
Qed.

(** ** More on [runcmd]: errors of the launch, the wait bound, the files *)

Section LauncherBehaviour.
Context `{py : PyRuntime}.
Import qemuHelper.

Lemma write_all_other ws (fs : gmap string bytes) k :
  k ∉ ((λ x, x.1) <$> ws : list string) → write_all ws fs !! k = fs !! k.
Proof.
  revert fs. induction ws as [|[k' v] ws IH]; intros fs Hk; [done|].
  simpl in *. apply not_elem_of_cons in Hk as [Hne Hk].
  rewrite (IH _ Hk). by apply lookup_insert_ne.
Qed.

Lemma launch_file_ok prog rest w path names c :
  fresh_name (files w) (tmpdir w) prog ".log" (tmpnames w)
    = Some (path, names) →
  spawn w (prog :: rest) = inr c →
  launch (prog :: rest) false w =
  Return (Some path,
          mkPopen (prog :: rest) (child_pid c) None None (child_term c))
    (mkWorld
       (write_all (child_writes c)
          (<[path := printed_all c]> (<[path := []]> (files w))))
       (tmpdir w) names (spawn w)).
Proof.
  intros Hn Hs.
  unfold launch, Popen, NamedTemporaryFile, mbind, M_bind, mret, M_ret.
  simpl. rewrite Hn. simpl. by rewrite Hs.
Qed.

Lemma launch_pipe_ok prog rest w c :
  spawn w (prog :: rest) = inr c →
  launch (prog :: rest) true w =
  Return (None,
          mkPopen (prog :: rest) (child_pid c) (Some (printed Stdout c))
            (Some (printed Stderr c)) (child_term c))
    (set_files (write_all (child_writes c) (files w)) w).
Proof.
  intros Hs. unfold launch, Popen, mbind, M_bind, mret, M_ret.
  simpl. by rewrite Hs.
Qed.

(** X1: an error of the launch itself comes out of [runcmd] as it is,
    not as a [ProcessError]: [IndexError] for an empty argument vector,
    [FileExistsError] when no log file can be made, and the error of
    the operating system when the program cannot be started; in that
    last case, in file mode, the empty log file made before stays. *)
Theorem runcmd_launch_error pidFile w :
  (∀ toPipe, runcmd [] pidFile toPipe w = Raise IndexError w) ∧
  (∀ prog rest,
     fresh_name (files w) (tmpdir w) prog ".log" (tmpnames w) = None →
     runcmd (prog :: rest) pidFile false w = Raise FileExistsError w) ∧
  (∀ prog rest e,
     spawn w (prog :: rest) = inl e →
     runcmd (prog :: rest) pidFile true w = Raise e w ∧
     ∀ path names,
       fresh_name (files w) (tmpdir w) prog ".log" (tmpnames w)
         = Some (path, names) →
       runcmd (prog :: rest) pidFile false w =
       Raise e (mkWorld (<[path := []]> (files w)) (tmpdir w) names
                  (spawn w))).
Proof.
  split; [|split].
  - by intros [].
  - intros prog rest Hn. rewrite runcmd_phases.
    unfold launch, NamedTemporaryFile, mbind, M_bind. simpl. by rewrite Hn.
  - intros prog rest e Hs. split.
    + rewrite runcmd_phases. unfold launch, Popen, mbind, M_bind. simpl.
      by rewrite Hs.
    + intros path names Hn. rewrite runcmd_phases.
      unfold launch, Popen, NamedTemporaryFile, mbind, M_bind. simpl.
      rewrite Hn. simpl. by rewrite Hs.
Qed.

(** X2: a child that is still running when the bound of 5 is reached
    and ends later makes [runcmd] raise [TimeoutExpired], whatever its
    return code, the capture mode and the pid-file: a late return code
    0 gives no handle, and a late failure gives no [ProcessError]. *)
Theorem runcmd_late_exit_is_timeout
    cmdLine pidFile toPipe w name p w1 after rc :
  launch cmdLine toPipe w = Return (name, p) w1 →
  p_term p = Exits after rc → (5 < after)%N →
  runcmd cmdLine pidFile toPipe w = Raise (TimeoutExpired cmdLine 5) w1.
Proof.
  intros HL HT Hlt. rewrite runcmd_phases, HL, HT.
  apply N.leb_gt in Hlt. by rewrite Hlt.
Qed.

Lemma launch_args cmdLine toPipe w name p w1 :
  launch cmdLine toPipe w = Return (name, p) w1 → p_args p = cmdLine.
Proof.
  destruct toPipe.
  - by intros (_ & _ & c & _ & -> & _)%launch_pipe_inv.
  - by intros (? & ? & ? & ? & c & _ & _ & _ & _ & -> & _)%launch_file_inv.
Qed.

(** X3: the bound of 5 is no bound on [runcmd]: with a child that never
    ends, [p.wait(5)] raises [TimeoutExpired], and on the way out of
    the [with] block the child is waited for without a bound, so
    [runcmd] never comes back, in either capture mode and whatever the
    pid-file. *)
Theorem runcmd_never_returns_for_endless_child
    cmdLine pidFile toPipe w name p w1 :
  launch cmdLine toPipe w = Return (name, p) w1 →
  p_term p = NeverExits →
  wait p 5 w1 = Raise (TimeoutExpired cmdLine 5) w1 ∧
  runcmd cmdLine pidFile toPipe w = Hang.
Proof.
  intros HL HT. split.
  - unfold wait. by rewrite HT, (launch_args _ _ _ _ _ _ HL).
  - by rewrite runcmd_phases, HL, HT.
Qed.

(** X4: in pipe mode a launch that ends within the bound with return
    code 0 returns a handle that keeps the two streams apart: [out] is
    the trimmed text of the standard output alone, [err] that of the
    standard error alone; its pid is that of the child, it has no log
    file, and no file is made for it. *)
Theorem runcmd_pipe_handle prog rest w c after o e :
  spawn w (prog :: rest) = inr c →
  child_term c = Exits after 0 → (after ≤ 5)%N →
  decode (printed Stdout c) = inr o →
  decode (printed Stderr c) = inr e →
  runcmd (prog :: rest) None true w =
  Return (mkProcessInfo (Z.pos (child_pid c)) None (Some (strip e))
            (Some (strip o)))
    (set_files (write_all (child_writes c) (files w)) w).
Proof.
  intros Hs HT Hle Hdo Hde.
  rewrite (runcmd_succeeded _ _ _ _ _ _ _ _ (launch_pipe_ok _ rest _ _ Hs)
             HT Hle).
  by rewrite (succeeded_pipe None None
                (mkPopen (prog :: rest) (child_pid c)
                   (Some (printed Stdout c)) (Some (printed Stderr c))
                   (child_term c))
                _ _ _ _ _ eq_refl eq_refl Hdo Hde).
Qed.

(** X5: in pipe mode, when the child has ended within the bound, output
    that is not UTF-8 makes [runcmd] raise [UnicodeDecodeError],
    whatever the return code and the pid-file: the standard output is
    looked at first, the standard error after it. *)
Theorem runcmd_pipe_undecodable prog rest pidFile w c after rc :
  spawn w (prog :: rest) = inr c →
  child_term c = Exits after rc → (after ≤ 5)%N →
  let w1 := set_files (write_all (child_writes c) (files w)) w in
  (∀ x, decode (printed Stdout c) = inl x →
        runcmd (prog :: rest) pidFile true w = Raise x w1 ∧
        ∃ pos, x = UnicodeDecodeError pos) ∧
  (∀ o x, decode (printed Stdout c) = inr o →
          decode (printed Stderr c) = inl x →
          runcmd (prog :: rest) pidFile true w = Raise x w1 ∧
          ∃ pos, x = UnicodeDecodeError pos).
Proof.
  intros Hs HT Hle w1. subst w1.
  set (w1 := set_files (write_all (child_writes c) (files w)) w).
  pose proof (launch_pipe_ok _ rest _ _ Hs) as HL. fold w1 in HL.
  assert (∀ x,
            _readpipe
              (mkPopen (prog :: rest) (child_pid c) (Some (printed Stdout c))
                 (Some (printed Stderr c)) (child_term c)) w1 = Raise x w1 →
            runcmd (prog :: rest) pidFile true w = Raise x w1) as Hrp.
  { intros x Hx. rewrite runcmd_phases, HL. cbn [p_term].
    rewrite HT in Hx |- *.
    apply N.leb_le in Hle. rewrite Hle.
    destruct (decide (rc ≠ 0)); unfold failed, succeeded, mbind, M_bind;
      by rewrite Hx. }
  split.
  - intros x Hx. split; [|by eapply decode_error].
    apply Hrp.
    erewrite _readpipe_cases; [|reflexivity|reflexivity].
    by rewrite Hx.
  - intros o x Ho Hx. split; [|by eapply decode_error].
    apply Hrp.
    erewrite _readpipe_cases; [|reflexivity|reflexivity].
    by rewrite Ho, Hx.
Qed.

(** X6: in file mode a launch that ends within the bound with return
    code 0 returns a handle whatever the child printed, text or not:
    the pid of the child, no captured text, and the path of a log file
    that was not there before; unless the child wrote that path itself,
    the file holds all the child printed, both streams in the order of
    printing. *)
Theorem runcmd_file_handle_and_log prog rest w path names c after :
  fresh_name (files w) (tmpdir w) prog ".log" (tmpnames w)
    = Some (path, names) →
  spawn w (prog :: rest) = inr c →
  child_term c = Exits after 0 → (after ≤ 5)%N →
  ∃ w',
    runcmd (prog :: rest) None false w =
      Return (mkProcessInfo (Z.pos (child_pid c)) (Some path) None None) w' ∧
    files w !! path = None ∧
    tmpnames w' = names ∧
    (path ∉ written c → files w' !! path = Some (printed_all c)).
Proof.
  intros Hn Hs HT Hle. eexists. split; [|split; [|split]].
  - rewrite (runcmd_succeeded _ _ _ _ _ _ _ _
               (launch_file_ok _ rest _ _ _ _ Hn Hs) HT Hle).
    reflexivity.
  - by eapply fresh_name_free.
  - reflexivity.
  - intros Hw. simpl. rewrite (write_all_other _ _ _ Hw).
    apply lookup_insert_eq.
Qed.

(** X7: in file mode the text of a failed start is made of the whole
    log, so it carries what the child printed on its standard output as
    well as on its standard error, in the order of printing. *)
Theorem runcmd_file_failure_reports_both_streams
    prog rest pidFile w path names c after rc s :
  fresh_name (files w) (tmpdir w) prog ".log" (tmpnames w)
    = Some (path, names) →
  spawn w (prog :: rest) = inr c →
  child_term c = Exits after rc → (after ≤ 5)%N → rc ≠ 0 →
  path ∉ written c →
  decode (printed_all c) = inr s →
  ∃ w', runcmd (prog :: rest) pidFile false w =
        Raise (ProcessError (start_failure prog (strip s))) w'.
Proof.
  intros Hn Hs HT Hle Hrc Hw Hd. eexists.
  rewrite (runcmd_failed _ pidFile _ _ _ _ _ _ _
             (launch_file_ok _ rest _ _ _ _ Hn Hs) HT Hle Hrc).
  erewrite failed_file; [|reflexivity|].
  - by rewrite Hd.
  - simpl. rewrite (write_all_other _ _ _ Hw). apply lookup_insert_eq.
Qed.

(** X8: the pid-file is looked at only after a return code 0 within the
    bound: in every other case [runcmd] does the same whichever
    pid-file it was given, or none. *)
Theorem runcmd_failure_ignores_pidFile cmdLine pidFile pidFile' toPipe w :
  (∀ name p w1 after,
     launch cmdLine toPipe w = Return (name, p) w1 →
     p_term p = Exits after 0 → (5 < after)%N) →
  runcmd cmdLine pidFile toPipe w = runcmd cmdLine pidFile' toPipe w.
Proof.
  intros Hno. rewrite !runcmd_phases.
  destruct (launch cmdLine toPipe w) as [[name p] w1| |] eqn:HL; try done.
  destruct (p_term p) as [after rc|] eqn:HT; [|done].
  destruct (after <=? 5)%N eqn:Hle; [|done].
  destruct (decide (rc ≠ 0)) as [|Hz]; [done|].
  assert (rc = 0) as -> by by destruct (decide (rc = 0)).
  apply N.leb_le in Hle. specialize (Hno _ _ _ _ eq_refl HT). lia.
Qed.

Lemma _readlog_world f cmd w :
  ∀ w', (∀ s, _readlog f cmd w = Return s w' → w' = w) ∧
        (∀ e, _readlog f cmd w = Raise e w' → w' = w).
Proof.
  intros w'.
  destruct (_readlog_outcome f cmd w) as [[s ->]|[e ->]];
    split; intros ? [=]; done.
Qed.

Lemma _readpipe_world p w :
  ∀ w', (∀ oe, _readpipe p w = Return oe w' → w' = w) ∧
        (∀ e, _readpipe p w = Raise e w' → w' = w).
Proof.
  intros w'. unfold _readpipe, read_pipe, mbind, M_bind, lift.
  destruct (p_stdout p); [|split; intros ? [=]; done]. simpl.
  destruct (decode _); [split; intros ? [=]; done|]. simpl.
  destruct (p_stderr p); [|split; intros ? [=]; done]. simpl.
  destruct (decode _); split; intros ? [=]; done.
Qed.

Lemma resolve_pid_world pidFile p w :
  ∀ w', (∀ n, resolve_pid pidFile p w = Return n w' → w' = w) ∧
        (∀ e, resolve_pid pidFile p w = Raise e w' → w' = w).
Proof.
  intros w'. destruct pidFile as [f|]; [|split; intros ? [=]; done].
  unfold resolve_pid, mbind, M_bind.
  destruct (_readlog_outcome f "" w) as [[s ->]|[e ->]];
    [|split; intros ? [=]; done].
  destruct (int_of_str s); split; intros ? [=]; done.
Qed.

(** Neither branch of [runcmd] changes the world. *)
Lemma failed_world cmdLine toPipe name p w1 e w' :
  failed cmdLine toPipe name p w1 = Raise e w' → w' = w1.
Proof.
  unfold failed, mbind, M_bind, raise. destruct toPipe.
  - destruct (_readpipe p w1) as [oe w2|x w2|] eqn:Hrp; try done.
    + apply _readpipe_world in Hrp as ->. simpl.
      destruct cmdLine; by intros [=].
    + apply _readpipe_world in Hrp as ->. by intros [=].
  - destruct name as [n|]; [|by intros [=]].
    destruct cmdLine as [|prog rest]; [by intros [=]|]. simpl.
    destruct (_readlog n prog w1) as [s w2|x w2|] eqn:Hrl; try done.
    + apply _readlog_world in Hrl as ->. by intros [=].
    + apply _readlog_world in Hrl as ->. by intros [=].
Qed.

Lemma succeeded_world pidFile toPipe name p w1 w' :
  (∀ h, succeeded pidFile toPipe name p w1 = Return h w' → w' = w1) ∧
  (∀ e, succeeded pidFile toPipe name p w1 = Raise e w' → w' = w1).
Proof.
  unfold succeeded, mbind, M_bind.
  assert (∀ cap : option string * option string,
            (∀ h, match resolve_pid pidFile p w1 with
                  | Return n w2 =>
                      Return (mkProcessInfo n name cap.2 cap.1) w2
                  | Raise e w2 => Raise e w2
                  | Hang => Hang
                  end = Return h w' → w' = w1) ∧
            (∀ e, match resolve_pid pidFile p w1 with
                  | Return n w2 =>
                      Return (mkProcessInfo n name cap.2 cap.1) w2
                  | Raise e w2 => Raise e w2
                  | Hang => Hang
                  end = Raise e w' → w' = w1)) as Hrest.
  { intros cap.
    destruct (resolve_pid pidFile p w1) as [n w2|x w2|] eqn:Hr.
    - apply resolve_pid_world in Hr as ->. split; intros ? [=]; done.
    - apply resolve_pid_world in Hr as ->. split; intros ? [=]; done.
    - split; intros ? [=]. }
  destruct toPipe.
  - destruct (_readpipe p w1) as [oe w2|x w2|] eqn:Hrp.
    + apply _readpipe_world in Hrp as ->. apply (Hrest (Some oe.1, Some oe.2)).
    + apply _readpipe_world in Hrp as ->. split; intros ? [=]; done.
    + split; intros ? [=].
  - apply (Hrest (None, None)).
Qed.

(** Where [runcmd] leaves the world: as its launch left it. *)
Lemma runcmd_world cmdLine pidFile toPipe w w' :
  (∃ h, runcmd cmdLine pidFile toPipe w = Return h w') ∨
  (∃ e, runcmd cmdLine pidFile toPipe w = Raise e w') →
  (∃ e, launch cmdLine toPipe w = Raise e w') ∨
  (∃ name p, launch cmdLine toPipe w = Return (name, p) w').
Proof.
  rewrite runcmd_phases.
  destruct (launch cmdLine toPipe w) as [[name p] w1|x w1|] eqn:HL.
  - intros Hout. right. exists name, p.
    destruct (p_term p) as [after rc|]; [|by destruct Hout as [[? ?]|[? ?]]].
    destruct (after <=? 5)%N;
      [|by destruct Hout as [[? [=]]|[? [= _ ->]]]].
    destruct (decide (rc ≠ 0)).
    + destruct Hout as [[h Hr]|[e Hr]];
        [by apply failed_no_handle in Hr|].
      by apply failed_world in Hr as ->.
    + destruct Hout as [[h Hr]|[e Hr]];
        by apply succeeded_world in Hr as ->.
  - intros [[h [=]]|[e [= _ ->]]]. left. by exists x.
  - by intros [[? [=]]|[? [=]]].
Qed.

(** X9: in pipe mode [runcmd] makes no file and draws no temporary
    name: however it ends, the world is as it found it, changed at most
    by what the child it started wrote. *)
Theorem runcmd_pipe_makes_no_file cmdLine pidFile w w' :
  (∃ h, runcmd cmdLine pidFile true w = Return h w') ∨
  (∃ e, runcmd cmdLine pidFile true w = Raise e w') →
  tmpnames w' = tmpnames w ∧
  (w' = w ∨
   ∃ c, spawn w cmdLine = inr c ∧
        w' = set_files (write_all (child_writes c) (files w)) w).
Proof.
  intros [[e HL]|(name & p & HL)]%runcmd_world.
  - assert (w' = w) as ->; [|by eauto].
    revert HL. unfold launch, Popen, mbind, M_bind. simpl.
    destruct cmdLine; [by intros [=]|].
    destruct (spawn w _); by intros [=].
  - apply launch_pipe_inv in HL as (_ & _ & c & Hs & _ & ->).
    split; [done|]. right. by exists c.
Qed.


(** X11: two launches in file mode, one after the other, that both
    return a handle have different log files. *)
Theorem successive_log_files_differ
    cmdLine pidFile cmdLine' pidFile' w h w1 h' w2 :
  runcmd cmdLine pidFile false w = Return h w1 →
  runcmd cmdLine' pidFile' false w1 = Return h' w2 →
  is_Some (logFile h) ∧ is_Some (logFile h') ∧ logFile h ≠ logFile h'.
Proof.
  intros (name & p & after & HL & _ & _ & Hn & _)%runcmd_handle_shape
         (name' & p' & after' & HL' & _ & _ & Hn' & _)%runcmd_handle_shape.
  apply launch_file_inv in HL
    as (prog & rest & path & names & c & _ & _ & -> & _ & _ & ->).
  apply launch_file_inv in HL'
    as (prog' & rest' & path' & names' & c' & _ & Hfree & -> & _ & _ & _).
  rewrite Hn, Hn'. split; [by eexists|]. split; [by eexists|].
  intros [= ->]. apply fresh_name_free in Hfree. simpl in Hfree.
  destruct (write_all_is_Some (child_writes c)
              (<[path' := printed_all c]> (<[path' := []]> (files w))) path')
    as [b Hb]; [rewrite lookup_insert_eq; by eexists|].
  congruence.
Qed.

(** X12: [_readlog] raises nothing but [ProcessError], in whose text
    [cmd] stands, never blocks and leaves the world as it is: it
    returns the trimmed text of the file when the file is there and is
    UTF-8, and raises in every other case. *)
Theorem _readlog_returns_or_ProcessError f cmd w :
  (∃ b s, files w !! f = Some b ∧ decode b = inr s ∧
          _readlog f cmd w = Return (strip s) w) ∨
  (∃ msg, _readlog f cmd w = Raise (ProcessError msg) w ∧
          contains cmd msg ∧
          (files w !! f = None ∨
           ∃ b e, files w !! f = Some b ∧ decode b = inl e)).
Proof.
  destruct (files w !! f) as [b|] eqn:Hf.
  - destruct (decode b) as [e|s] eqn:Hd.
    + right. eexists. split; [by eapply _readlog_undecodable|].
      split; [apply read_failure_contains|]. right. by exists b, e.
    + left. exists b, s. by rewrite (_readlog_found _ _ _ _ _ Hf Hd).
  - right. eexists. split; [by apply _readlog_missing|].
    split; [apply read_failure_contains|]. by left.
Qed.

End LauncherBehaviour.

(** ** More on the methods *)

Section OperationBehaviour.
Context `{py : PyRuntime}.
Import qemuHelper.

(** What [runcmd] can raise in file mode. *)
Lemma runcmd_file_errors cmdLine pidFile w e w' :
  runcmd cmdLine pidFile false w = Raise e w' →
  (cmdLine = [] ∧ e = IndexError) ∨
  e = FileExistsError ∨
  spawn w cmdLine = inl e ∨
  e = TimeoutExpired cmdLine 5 ∨
  is_ProcessError e = true ∨
  (∃ s, e = ValueError s ∧ is_Some pidFile).
Proof.
  rewrite runcmd_phases.
  destruct (launch cmdLine false w) as [[name p] w1|x w1|] eqn:HL.
  - destruct (p_term p) as [after rc|]; [|done].
    destruct (after <=? 5)%N; [|intros [= <- _]; tauto].
    destruct (launch_nonempty _ _ _ _ _ _ HL) as [prog Hh].
    destruct (decide (rc ≠ 0)).
    + destruct (launch_file_log _ _ _ _ _ HL) as (path & b & -> & Hb & _).
      rewrite (failed_file _ _ _ _ _ _ Hh Hb). intros [= <- _]. tauto.
    + rewrite succeeded_file. destruct pidFile as [f|]; [|done].
      unfold resolve_pid, mbind, M_bind.
      destruct (_readlog_outcome f "" w1) as [[s ->]|[x ->]].
      * destruct (int_of_str s); [done|]. intros [= <- _].
        do 5 right. exists s. by split; [|eexists].
      * intros [= <- _]. tauto.
  - intros [= <- _]. revert HL.
    unfold launch, Popen, NamedTemporaryFile, mbind, M_bind. simpl.
    destruct cmdLine as [|prog rest]; [intros [= <- _]; tauto|]. simpl.
    destruct (fresh_name _ _ _ _ _) as [[path names]|];
      [|intros [= <- _]; tauto].
    simpl. destruct (spawn w (prog :: rest)) as [y|c] eqn:Hs; [|done].
    intros [= <- _]. tauto.
  - done.
Qed.

(** X13: what [create], [startRestoreNbdServer], [startNbdkitProcess],
    [startBackupNbdServer] and [disconnect] can raise: the failure to
    make a temporary file, the error of the operating system when the
    program cannot be started, [TimeoutExpired] with the bound 5,
    [ProcessError], and, for the two methods that pass a pid-file,
    [ValueError]; [UnicodeDecodeError] and [AttributeError] do not come
    out of them. *)
Theorem public_operation_errors self op w e w' :
  invoke self op w = Raise e w' →
  e = FileExistsError ∨
  (∃ argv, spawn w argv = inl e) ∨
  (∃ argv, e = TimeoutExpired argv 5) ∨
  is_ProcessError e = true ∨
  (∃ s, e = ValueError s ∧ passes_pidFile op = true).
Proof.
  assert (∀ cmdLine pidFile w0,
            spawn w0 = spawn w → cmdLine ≠ [] →
            (is_Some pidFile → passes_pidFile op = true) →
            runcmd cmdLine pidFile false w0 = Raise e w' →
            e = FileExistsError ∨
            (∃ argv, spawn w argv = inl e) ∨
            (∃ argv, e = TimeoutExpired argv 5) ∨
            is_ProcessError e = true ∨
            (∃ s, e = ValueError s ∧ passes_pidFile op = true)) as Hrun.
  { intros cmdLine pidFile w0 Hsp Hne Hpf
      [[? _]|[->|[Hs|[->|[Hp|(s & -> & Hsome)]]]]]%runcmd_file_errors.
    - done.
    - tauto.
    - rewrite Hsp in Hs. right; left. by eexists.
    - right; right; left. by eexists.
    - tauto.
    - do 4 right. exists s. auto. }
  destruct op; simpl.
  - apply Hrun; try done. by intros [? [=]].
  - apply Hrun; try done. by intros [? [=]].
  - unfold startNbdkitProcess, startNbdkitProcess_cmd, mbind, M_bind.
    destruct (NamedTemporaryFile_cases "nbdkit" ".pid" w)
      as [->|(pf & w0 & Ht)]; [intros [= <- _]; tauto|].
    rewrite Ht. simpl. apply Hrun; try done.
    revert Ht. unfold NamedTemporaryFile.
    destruct (fresh_name _ _ _ _ _) as [[q r]|]; [|done].
    by intros [= _ <-].
  - apply Hrun; done.
  - apply Hrun; try done. by intros [? [=]].
Qed.

(** X14: [startBackupNbdServer] reads the pid from the very file it
    tells [qemu-nbd] to write, [<socketFile>.pid]: when [qemu-nbd] ends
    within the bound with return code 0 and that file holds an integer,
    the handle has that integer as its pid, the log file, and no
    captured text. *)
Theorem startBackupNbdServer_reads_its_pidfile
    self diskFormat diskFile socketFile bitMap w name p w1 after b s n :
  let cmd :=
    startBackupNbdServer_cmd self diskFormat diskFile socketFile bitMap in
  let pidFile := format socketFile +:+ ".pid" in
  launch cmd false w = Return (name, p) w1 →
  p_term p = Exits after 0 → (after ≤ 5)%N →
  files w1 !! pidFile = Some b → decode b = inr s →
  int_of_str (strip s) = Some n →
  ("--pid-file=" +:+ pidFile) ∈ cmd ∧
  startBackupNbdServer self diskFormat diskFile socketFile bitMap w =
  Return (mkProcessInfo n name None None) w1.
Proof.
  intros cmd pidFile HL HT Hle Hb Hd Hn. split.
  - subst cmd. unfold startBackupNbdServer_cmd. by repeat constructor.
  - unfold startBackupNbdServer.
    fold cmd. change (startBackupNbdServer_pidFile socketFile) with pidFile.
    rewrite (runcmd_succeeded _ _ _ _ _ _ _ _ HL HT Hle), succeeded_file.
    by rewrite (resolve_pid_file _ _ _ _ _ _ Hb Hd Hn).
Qed.

(** X15: the pid-file of [startNbdkitProcess] is made, empty, before
    [nbdkit] is started, so it is never missing; when [nbdkit] ends
    within the bound with return code 0 without having written it,
    [int] is given the empty text and [startNbdkitProcess] raises
    [ValueError]. *)
Theorem startNbdkitProcess_unwritten_pidfile
    self args nbdkitModule blockMap fullImage w pidFile cmd w0 path names c
    after :
  startNbdkitProcess_cmd self args nbdkitModule blockMap fullImage w
    = Return (pidFile, cmd) w0 →
  fresh_name (files w0) (tmpdir w0) "nbdkit" ".log" (tmpnames w0)
    = Some (path, names) →
  spawn w cmd = inr c →
  child_term c = Exits after 0 → (after ≤ 5)%N →
  pidFile ∉ written c →
  int_of_str "" = None →
  files w !! pidFile = None ∧
  ∃ w1, files w1 !! pidFile = Some [] ∧
        startNbdkitProcess self args nbdkitModule blockMap fullImage w
        = Raise (ValueError "") w1.
Proof.
  intros Hcmd Hn Hs HT Hle Hw Hint.
  assert (NamedTemporaryFile "nbdkit" ".pid" w = Return pidFile w0 ∧
          ∃ rest, cmd = "nbdkit" :: rest) as [Ht [rest ->]].
  { revert Hcmd. unfold startNbdkitProcess_cmd, mbind, M_bind, mret, M_ret.
    destruct (NamedTemporaryFile "nbdkit" ".pid" w) as [pf w2| |];
      try done.
    intros Heq. injection Heq as -> <- ->. split; [done|]. by eexists. }
  assert (spawn w0 = spawn w) as Hsp.
  { revert Ht. unfold NamedTemporaryFile.
    destruct (fresh_name (files w) _ _ _ _) as [[q r]|]; [|done].
    by intros [= _ <-]. }
  apply NamedTemporaryFile_Return in Ht as [Hnew Hmade].
  split; [done|].
  rewrite <- Hsp in Hs.
  pose proof (launch_file_ok _ rest _ _ _ _ Hn Hs) as HL.
  assert (path ≠ pidFile) as Hne.
  { intros ->. apply fresh_name_free in Hn. congruence. }
  eexists. split; last first.
  - unfold startNbdkitProcess, mbind, M_bind. rewrite Hcmd.
    rewrite (runcmd_succeeded _ _ _ _ _ _ _ _ HL HT Hle), succeeded_file.
    erewrite (resolve_pid_not_a_number _ _ _ [] "");
      [reflexivity| |reflexivity|exact Hint].
    simpl. rewrite (write_all_other _ _ _ Hw).
    by rewrite !lookup_insert_ne.
  - simpl. rewrite (write_all_other _ _ _ Hw).
    by rewrite !lookup_insert_ne.
Qed.

Lemma fresh_name_nonempty fs dir pre suf cands path rest :
  fresh_name fs dir pre suf cands = Some (path, rest) → path ≠ "".
Proof.
  induction cands as [|c cands IH]; [done|]. simpl.
  destruct (fs !! _); [done|]. intros [= <- _]. by destruct dir.
Qed.

(** Goes through the members of a short list. *)
Local Ltac pick v Hv :=
  revert Hv; rewrite !elem_of_cons, elem_of_nil; intros Hv;
  repeat (destruct Hv as [->|Hv]; [by repeat constructor|]).

(** X16: no method checks the values it passes on: a command line has
    an empty token exactly when one of the values the method makes a
    token of is the empty text; the tokens the methods write themselves
    and the name of the temporary pid-file are never empty. *)
Theorem empty_token_iff_empty_input self req w cmd w' :
  build self req w = Return (Argv cmd) w' →
  "" ∈ cmd ↔ ∃ v, v ∈ inputs self req ∧ format v = "".
Proof.
  destruct req; simpl.
  - done.
  - intros [= <- _]. unfold create_cmd. split.
    + rewrite !elem_of_cons, elem_of_nil.
      intros [?|[?|[?|[?|[?|[?|[]]]]]]]; try done; eexists;
        (split; [|by symmetry]); by repeat constructor.
    + intros (v & Hv & <-). by pick v Hv.
  - intros [= <- _]. unfold startRestoreNbdServer_cmd. split.
    + rewrite !elem_of_cons, elem_of_nil.
      intros [?|[?|[?|[?|[?|[?|[?|[?|[?|[]]]]]]]]]]; try done; eexists;
        (split; [|by symmetry]); by repeat constructor.
    + intros (v & Hv & <-). by pick v Hv.
  - unfold startNbdkitProcess_cmd, NamedTemporaryFile, mbind, M_bind, mret,
      M_ret.
    destruct (fresh_name _ _ _ _ _) as [[pf r]|] eqn:Hn; [|done].
    apply fresh_name_nonempty in Hn.
    intros [= <- _]. split.
    + rewrite !elem_of_cons, elem_of_nil.
      intros [?|[?|[?|[?|[?|[?|[?|[?|[?|[?|[?|[?|[?|[?|[?|[?|[?|[?|
             [?|[?|[]]]]]]]]]]]]]]]]]]]]];
        try done; try (by destruct (truthy (verbose args)));
        eexists; (split; [|by symmetry]); by repeat constructor.
    + intros (v & Hv & <-). by pick v Hv.
  - intros [= <- _]. unfold startBackupNbdServer_cmd. split.
    + rewrite !elem_of_cons, elem_of_nil.
      intros [?|[?|[?|[?|[?|[?|[?|[?|[?|[?|[?|[?|[?|[?|[]]]]]]]]]]]]]]];
        try done; try (by destruct (is_not_None bitMap));
        eexists; (split; [|by symmetry]); by repeat constructor.
    + intros (v & Hv & <-). by pick v Hv.
  - intros [= <- _]. unfold disconnect_cmd. split.
    + rewrite !elem_of_cons, elem_of_nil.
      intros [?|[?|[?|[]]]]; try done; eexists;
        (split; [|by symmetry]); by repeat constructor.
    + intros (v & Hv & <-). by pick v Hv.
Qed.

End OperationBehaviour.

(** ** These at work *)

Lemma runcmd_launch_error_witness :
  qemuHelper.runcmd (py:=example_runtime) ["qemu-img"; "info"] None false
    (mkWorld ∅ "/tmp" ["k3x9_a0b"] (λ _, inl (FileNotFoundError "qemu-img")))
  = Raise (FileNotFoundError "qemu-img")
      (mkWorld (<["/tmp/qemu-imgk3x9_a0b.log" := []]> ∅) "/tmp" []
         (λ _, inl (FileNotFoundError "qemu-img"))).
Proof.
  destruct (runcmd_launch_error (py:=example_runtime) None
              (mkWorld ∅ "/tmp" ["k3x9_a0b"]
                 (λ _, inl (FileNotFoundError "qemu-img"))))
    as (_ & _ & Hspawn).
  destruct (Hspawn "qemu-img" ["info"] (FileNotFoundError "qemu-img") eq_refl)
    as [_ Hfile].
  apply Hfile. reflexivity.
Defined.

Lemma runcmd_late_exit_is_timeout_witness :
  ∃ w1,
    qemuHelper.runcmd (py:=example_runtime) ["qemu-nbd"; "-d"; "/dev/nbd0"]
      None false (world_of ∅ (tool "" "" 9 0))
    = Raise (TimeoutExpired ["qemu-nbd"; "-d"; "/dev/nbd0"] 5) w1.
Proof.
  eexists.
  eapply (runcmd_late_exit_is_timeout (py:=example_runtime)
            ["qemu-nbd"; "-d"; "/dev/nbd0"] None false
            (world_of ∅ (tool "" "" 9 0)));
    [reflexivity | reflexivity | lia].
Defined.

Lemma runcmd_never_returns_for_endless_child_witness :
  qemuHelper.runcmd (py:=example_runtime)
    ["nbdkit"; "--foreground"; "-t"; "1"] None false
    (world_of ∅ (Child 4242 [] [] NeverExits))
  = Hang.
Proof.
  eapply (runcmd_never_returns_for_endless_child (py:=example_runtime)
            ["nbdkit"; "--foreground"; "-t"; "1"] None false
            (world_of ∅ (Child 4242 [] [] NeverExits)));
    [reflexivity | reflexivity].
Defined.

Lemma runcmd_pipe_handle_witness :
  qemuHelper.runcmd (py:=example_runtime) ["qemu-img"; "--version"] None true
    (world_of ∅ (tool "qemu-img version 8.2.2
" "  warning: old
" 0 0))
  = Return (mkProcessInfo 4242 None (Some "warning: old")
              (Some "qemu-img version 8.2.2"))
      (set_files
         (write_all [] (files (world_of ∅ (tool "qemu-img version 8.2.2
" "  warning: old
" 0 0))))
         (world_of ∅ (tool "qemu-img version 8.2.2
" "  warning: old
" 0 0))).
Proof.
  apply (runcmd_pipe_handle (py:=example_runtime) "qemu-img" ["--version"]
           (world_of ∅ (tool "qemu-img version 8.2.2
" "  warning: old
" 0 0))
           (tool "qemu-img version 8.2.2
" "  warning: old
" 0 0) 0 "qemu-img version 8.2.2
" "  warning: old
");
    [reflexivity | reflexivity | lia | reflexivity | reflexivity].
Defined.

Lemma runcmd_pipe_undecodable_witness :
  ∃ w1,
    qemuHelper.runcmd (py:=example_runtime) ["qemu-img"; "--version"] None
      true (world_of ∅ (Child 4242 [(Stdout, [xff]%byte)] [] (Exits 0 0)))
    = Raise (UnicodeDecodeError 0) w1.
Proof.
  edestruct (runcmd_pipe_undecodable (py:=example_runtime) "qemu-img"
               ["--version"] None
               (world_of ∅ (Child 4242 [(Stdout, [xff]%byte)] [] (Exits 0 0))))
    as [Hout _];
    [reflexivity | reflexivity | lia |].
  eexists. refine (proj1 (Hout _ _)). reflexivity.
Defined.

Lemma runcmd_file_handle_and_log_witness :
  ∃ w',
    qemuHelper.runcmd (py:=example_runtime)
      ["qemu-img"; "create"; "-f"; "qcow2"; "/tmp/r.qcow2"; "1048576"]
      None false (world_of ∅ (tool "Formatting" "" 0 0))
    = Return (mkProcessInfo 4242 (Some "/tmp/qemu-imgk3x9_a0b.log") None None)
        w' ∧
    files w' !! "/tmp/qemu-imgk3x9_a0b.log" = Some (encode "Formatting").
Proof.
  edestruct (runcmd_file_handle_and_log (py:=example_runtime) "qemu-img"
               ["create"; "-f"; "qcow2"; "/tmp/r.qcow2"; "1048576"]
               (world_of ∅ (tool "Formatting" "" 0 0)))
    as (w' & Hr & _ & _ & Hlog);
    [reflexivity | reflexivity | reflexivity | lia |].
  exists w'. split; [exact Hr|]. apply Hlog. apply not_elem_of_nil.
Defined.

Lemma runcmd_file_failure_reports_both_streams_witness :
  ∃ w',
    qemuHelper.runcmd (py:=example_runtime)
      ["qemu-img"; "create"; "-f"; "qcow2"; "/tmp/r.qcow2"; "-1"]
      None false
      (world_of ∅ (tool "Formatting, " "qemu-img: Invalid image size
" 0 1))
    = Raise (ProcessError
               (start_failure "qemu-img"
                  "Formatting, qemu-img: Invalid image size")) w'.
Proof.
  edestruct (runcmd_file_failure_reports_both_streams (py:=example_runtime)
               "qemu-img" ["create"; "-f"; "qcow2"; "/tmp/r.qcow2"; "-1"]
               None
               (world_of ∅ (tool "Formatting, " "qemu-img: Invalid image size
" 0 1)))
    with (s := "Formatting, qemu-img: Invalid image size
")
    as [w' Hr];
    [reflexivity | reflexivity | reflexivity | lia | lia
    | apply not_elem_of_nil | reflexivity |].
  exists w'. exact Hr.
Defined.

Lemma runcmd_failure_ignores_pidFile_witness :
  qemuHelper.runcmd (py:=example_runtime) ["qemu-nbd"; "--fork"]
    (Some "/run/nbd.sock.pid") false (world_of ∅ silent_failure)
  = qemuHelper.runcmd (py:=example_runtime) ["qemu-nbd"; "--fork"] None false
      (world_of ∅ silent_failure).
Proof.
  apply (runcmd_failure_ignores_pidFile (py:=example_runtime)).
  intros name p w1 after HL HT. vm_compute in HL.
  injection HL as <- <- <-. discriminate HT.
Defined.

Lemma runcmd_pipe_makes_no_file_witness :
  ∃ h w',
    qemuHelper.runcmd (py:=example_runtime) ["qemu-img"; "--version"] None
      true (world_of ∅ (tool "qemu-img version 8.2.2" "" 0 0))
    = Return h w' ∧
    tmpnames w' = ["k3x9_a0b"; "w8s1hq2z"].
Proof.
  eexists _, _. split; [reflexivity|].
  edestruct (runcmd_pipe_makes_no_file (py:=example_runtime)
               ["qemu-img"; "--version"] None
               (world_of ∅ (tool "qemu-img version 8.2.2" "" 0 0)))
    as [Hnames _]; [left; eexists; reflexivity|].
  exact Hnames.
Defined.


Lemma successive_log_files_differ_witness :
  ∃ h w1 h' w2,
    qemuHelper.runcmd (py:=example_runtime) ["qemu-img"; "--version"] None
      false (world_of ∅ (tool "qemu-img version 8.2.2" "" 0 0))
    = Return h w1 ∧
    qemuHelper.runcmd (py:=example_runtime) ["qemu-img"; "--version"] None
      false w1
    = Return h' w2 ∧
    logFile h ≠ logFile h'.
Proof.
  eexists _, _, _, _. split; [reflexivity|]. split; [reflexivity|].
  edestruct (successive_log_files_differ (py:=example_runtime)
               ["qemu-img"; "--version"] None ["qemu-img"; "--version"] None
               (world_of ∅ (tool "qemu-img version 8.2.2" "" 0 0)))
    as (_ & _ & Hdiff);
    [reflexivity | reflexivity |].
  exact Hdiff.
Defined.

Lemma public_operation_errors_witness :
  ∃ e w',
    invoke (py:=example_runtime) export0 (Disconnect (VStr "/dev/nbd0"))
      (world_of ∅ silent_failure)
    = Raise e w' ∧
    (e = FileExistsError ∨
     (∃ argv, spawn (world_of ∅ silent_failure) argv = inl e) ∨
     (∃ argv, e = TimeoutExpired argv 5) ∨
     is_ProcessError e = true ∨
     (∃ s, e = ValueError s ∧
           passes_pidFile (Disconnect (VStr "/dev/nbd0")) = true)).
Proof.
  eexists _, _. split; [reflexivity|].
  eapply (public_operation_errors (py:=example_runtime) export0
            (Disconnect (VStr "/dev/nbd0")) (world_of ∅ silent_failure)).
  reflexivity.
Defined.

Lemma startBackupNbdServer_reads_its_pidfile_witness :
  ∃ name w1,
    qemuHelper.startBackupNbdServer (py:=example_runtime) export0
      (VStr "qcow2") (VStr "/img/sda.qcow2") (VStr "/run/nbd.sock") VNone
      (world_of ∅ (daemon "/run/nbd.sock.pid" "4711
"))
    = Return (mkProcessInfo 4711 name None None) w1.
Proof.
  eexists _, _.
  eapply (startBackupNbdServer_reads_its_pidfile (py:=example_runtime)
            export0 (VStr "qcow2") (VStr "/img/sda.qcow2")
            (VStr "/run/nbd.sock") VNone
            (world_of ∅ (daemon "/run/nbd.sock.pid" "4711
")));
    [reflexivity | reflexivity | lia | reflexivity | reflexivity
    | reflexivity].
Defined.

Lemma startNbdkitProcess_unwritten_pidfile_witness :
  ∃ w1,
    qemuHelper.startNbdkitProcess (py:=example_runtime) export0
      virtnbdmap_args (VStr "/usr/lib/virtnbd.py") (VStr "/tmp/map.json")
      (VStr "/img/sda.full.data")
      (world_of ∅ (Child 4242 [] [] (Exits 0 0)))
    = Raise (ValueError "") w1.
Proof.
  edestruct (startNbdkitProcess_unwritten_pidfile (py:=example_runtime)
               export0 virtnbdmap_args (VStr "/usr/lib/virtnbd.py")
               (VStr "/tmp/map.json") (VStr "/img/sda.full.data")
               (world_of ∅ (Child 4242 [] [] (Exits 0 0))))
    as (_ & w1 & _ & Hr);
    [reflexivity | reflexivity | reflexivity | reflexivity | lia
    | apply not_elem_of_nil | reflexivity |].
  exists w1. exact Hr.
Defined.

Lemma empty_token_iff_empty_input_witness :
  "" ∈ qemuHelper.disconnect_cmd (VStr "").
Proof.
  apply (empty_token_iff_empty_input export0 (BuildDisconnect (VStr ""))
           (world_of ∅ silent_failure) _ (world_of ∅ silent_failure)
           eq_refl).
  exists (VStr ""). split; [by repeat constructor | reflexivity].
Defined.

(** ** More on [map] and on the pid-file of [startNbdkitProcess] *)

Section MapBehaviour.
Context `{py : PyRuntime}.
Import qemuHelper.

(** X17: what [map] can raise: the error of the operating system when
    the shell cannot be started, [CalledProcessError] with the return
    code, the command and both captured outputs when the shell ends
    with a return code other than 0, and whatever [json.loads] raises
    on the standard output; it draws no temporary name, and the world
    changes by what the shell's child wrote at most. *)
Theorem map_errors self cType w e w' :
  map self cType w = Raise e w' →
  tmpnames w' = tmpnames w ∧
  (spawn w ["/bin/sh"; "-c"; map_cmd cType] = inl e ∧ w' = w ∨
   ∃ c after rc,
     spawn w ["/bin/sh"; "-c"; map_cmd cType] = inr c ∧
     child_term c = Exits after rc ∧
     w' = set_files (write_all (child_writes c) (files w)) w ∧
     (rc ≠ 0 ∧
      e = CalledProcessError rc (map_cmd cType) (printed Stdout c)
            (printed Stderr c) ∨
      rc = 0 ∧ json_loads (printed Stdout c) = inl e)).
Proof.
  unfold map, subprocess_run, with_Popen, Popen, mbind, M_bind.
  destruct (spawn w ["/bin/sh"; "-c"; map_cmd cType]) as [x|c] eqn:Hs.
  - intros [= <- <-]. split; [done|]. by left.
  - simpl. destruct (child_term c) as [after rc|] eqn:HT; [|done]. simpl.
    destruct (decide (rc ≠ 0)) as [Hrc|Hz].
    + intros [= <- <-]. split; [done|]. right. exists c, after, rc.
      repeat split; try done. by left.
    + assert (rc = 0) as -> by by destruct (decide (rc = 0)).
      simpl. destruct (json_loads (printed Stdout c)) as [x|v] eqn:Hj;
        [|done].
      simpl. intros [= <- <-]. split; [done|]. right. exists c, after, 0.
      repeat split; try done. by right.
Qed.

(** X18: [startNbdkitProcess] reads the pid from the very file it names
    to [nbdkit] after [--pidfile]: when [nbdkit] ends within the bound
    with return code 0 and that file holds an integer, the handle has
    that integer as its pid, the log file, and no captured text. *)
Theorem startNbdkitProcess_reads_its_pidfile
    self args nbdkitModule blockMap fullImage w pidFile cmd w0 name p w1
    after b s n :
  startNbdkitProcess_cmd self args nbdkitModule blockMap fullImage w
    = Return (pidFile, cmd) w0 →
  launch cmd false w0 = Return (name, p) w1 →
  p_term p = Exits after 0 → (after ≤ 5)%N →
  files w1 !! pidFile = Some b → decode b = inr s →
  int_of_str (strip s) = Some n →
  cmd !! 1%nat = Some "--pidfile" ∧ cmd !! 2%nat = Some pidFile ∧
  startNbdkitProcess self args nbdkitModule blockMap fullImage w =
  Return (mkProcessInfo n name None None) w1.
Proof.
  intros Hcmd HL HT Hle Hb Hd Hn.
  assert (cmd !! 1%nat = Some "--pidfile" ∧ cmd !! 2%nat = Some pidFile)
    as [H1 H2].
  { revert Hcmd. unfold startNbdkitProcess_cmd, mbind, M_bind, mret, M_ret.
    destruct (NamedTemporaryFile "nbdkit" ".pid" w) as [pf w2| |];
      try done.
    intros Heq. by injection Heq as -> <- ->. }
  split; [done|]. split; [done|].
  unfold startNbdkitProcess, mbind, M_bind. rewrite Hcmd.
  rewrite (runcmd_succeeded _ _ _ _ _ _ _ _ HL HT Hle), succeeded_file.
  by rewrite (resolve_pid_file _ _ _ _ _ _ Hb Hd Hn).
Qed.

End MapBehaviour.

Lemma map_errors_witness :
  ∃ w',
    qemuHelper.map (py:=example_runtime) export0
      (mkConnection VNone (VStr "nbd+unix:///sda?socket=/run/nbd.sock"))
      (world_of ∅ (tool "" "nbdinfo: connection refused" 0 1))
    = Raise (CalledProcessError 1
               "nbdinfo --json --map 'nbd+unix:///sda?socket=/run/nbd.sock'"
               (encode "") (encode "nbdinfo: connection refused")) w' ∧
    tmpnames w' = ["k3x9_a0b"; "w8s1hq2z"].
Proof.
  eexists. split; [reflexivity|].
  edestruct (map_errors (py:=example_runtime) export0
               (mkConnection VNone
                  (VStr "nbd+unix:///sda?socket=/run/nbd.sock"))
               (world_of ∅ (tool "" "nbdinfo: connection refused" 0 1)))
    as [Hnames _]; [reflexivity|].
  exact Hnames.
Defined.

Lemma startNbdkitProcess_reads_its_pidfile_witness :
  ∃ name w1,
    qemuHelper.startNbdkitProcess (py:=example_runtime) export0
      virtnbdmap_args (VStr "/usr/lib/virtnbd.py") (VStr "/tmp/map.json")
      (VStr "/img/sda.full.data")
      (world_of ∅ (daemon "/tmp/nbdkitk3x9_a0b.pid" "815"))
    = Return (mkProcessInfo 815 name None None) w1.
Proof.
  eexists _, _.
  eapply (startNbdkitProcess_reads_its_pidfile (py:=example_runtime) export0
            virtnbdmap_args (VStr "/usr/lib/virtnbd.py")
            (VStr "/tmp/map.json") (VStr "/img/sda.full.data")
            (world_of ∅ (daemon "/tmp/nbdkitk3x9_a0b.pid" "815")));
    [reflexivity | reflexivity | reflexivity | lia | reflexivity
    | reflexivity | reflexivity].
Defined.
